(** * The racing environment and its agent physics model

    A shallow embedding of [modules/sprite.py] and [modules/env.py] of the
    reinforcement-learning-racing module, and the properties of the
    environment contract checked against it.

    Python floats are modelled as rationals ([Q]); equalities between them
    are stated with [==].  Exceptions are modelled with the result type
    [Py.Res].  Code of the repository that is not part of the two modules
    (the track) and the external libraries (pygame's clock and event queue,
    the gym simulator, the torchvision resize pipeline) enter as interfaces
    or as explicit inputs of the operations. *)

From Stdlib Require Import String ZArith QArith Qround Lqa List Bool Lia.
Import ListNotations.
Open Scope Q_scope.

(* ===================================================================== *)
(** ** Python runtime: exceptions and numeric conversions *)
(* ===================================================================== *)

Module Py.

Inductive Error : Type :=
| TypeError
| AttributeError
| ZeroDivisionError
| NotImplementedError.

Inductive Res (A : Type) : Type :=
| Ok (a : A)
| Raise (e : Error).

Arguments Ok {A} a.
Arguments Raise {A} e.

Definition bind {A B : Type} (m : Res A) (k : A -> Res B) : Res B :=
  match m with
  | Ok a => k a
  | Raise e => Raise e
  end.

Definition is_ok {A : Type} (m : Res A) : bool :=
  match m with Ok _ => true | Raise _ => false end.

(** [int(x)]: truncation toward zero. *)
Definition int (q : Q) : Z := Z.quot (Qnum q) (Zpos (Qden q)).

(** [ndarray.astype(int)], a cast to 64-bit integers: truncation toward
    zero; a value outside the 64-bit range comes out as the smallest
    64-bit integer, which is what the conversion instruction of x86-64
    leaves. *)
Definition astype_int (q : Q) : Z :=
  let z := int q in
  if ((- 9223372036854775808 <=? z) && (z <? 9223372036854775808))%Z
  then z
  else (- 9223372036854775808)%Z.

(** [a < b] on floats. *)
Definition ltb (a b : Q) : bool :=
  match a ?= b with Lt => true | _ => false end.

(** [x in xs] for a list of integer literals. *)
Definition in_ (x : Z) (xs : list Z) : bool := existsb (Z.eqb x) xs.

End Py.

Notation "x <- m ;; k" := (Py.bind m (fun x => k))
  (at level 61, m at next level, right associativity).

(** Two-component numpy arrays. *)
Definition Vec2 : Type := (Q * Q)%type.

Definition vadd (a b : Vec2) : Vec2 := (fst a + fst b, snd a + snd b).
Definition vsub (a b : Vec2) : Vec2 := (fst a - fst b, snd a - snd b).
Definition vscale (a : Vec2) (k : Q) : Vec2 := (fst a * k, snd a * k).

(* ===================================================================== *)
(** ** sprite.py: the agent physics model *)
(* ===================================================================== *)

Module Sprite.

Definition SPRITE_SIZE : Z * Z := (25, 25)%Z.

Definition MAX_VELOCITY : Q := 3.45.
Definition MIN_VELOCITY : Q := -1.92.

Definition ACTION_SPACE_COUNT : Z := 2.
Definition MOTION_SPACE_COUNT : Z := 2.
Definition STEERING_SPACE_COUNT : Z := 2.

Definition acceleration : Q := 0.025.
Definition steering : Q := 0.037.
Definition attenuation : Q := 0.25.

(** The instance attributes.  [car_size_offset] exists only after
    [initialize] has run. *)
Record t : Type := mk {
  position : Vec2;
  rotation : Q;
  offset : Vec2;
  velocity : Q;
  car_size_offset : option Vec2
}.

Definition set_velocity (v : Q) (s : t) : t :=
  mk (position s) (rotation s) (offset s) v (car_size_offset s).

Definition set_rotation (r : Q) (s : t) : t :=
  mk (position s) r (offset s) (velocity s) (car_size_offset s).

Definition set_position (p : Vec2) (s : t) : t :=
  mk p (rotation s) (offset s) (velocity s) (car_size_offset s).

(** [__init__] *)
Definition init (position : Vec2) (rotation : Q) (offset : Vec2) : t :=
  mk position rotation offset 0 None.

(** [initialize]: the texture is scaled to [SPRITE_SIZE], so its rect has
    that size and [car_size_offset] is half of it. *)
Definition initialize (s : t) : t :=
  let car_size : Vec2 :=
    (inject_Z (fst SPRITE_SIZE), inject_Z (snd SPRITE_SIZE)) in
  mk (position s) (rotation s) (offset s) (velocity s)
     (Some (vscale car_size (1 / 2))).

(** [movement] *)
Definition movement (acceleration : Q) (s : t) : t :=
  let v := velocity s + acceleration in
  if Py.ltb MAX_VELOCITY v then set_velocity MAX_VELOCITY s
  else if Py.ltb v MIN_VELOCITY then set_velocity MIN_VELOCITY s
  else set_velocity v s.

(** [act]; [np.cos] and [np.sin] are taken as given. *)
Definition act (cos sin : Q -> Q) (scaling : Q) (s : t) : t :=
  let direction : Vec2 := (cos (rotation s), - sin (rotation s)) in
  set_position
    (vadd (position s) (vscale (vscale direction (velocity s)) scaling)) s.

(** The decode table of [act_actions]: the local [motion, steering]
    after the four membership tests. *)
Definition decode (action : Z) : Q * Q :=
  let motion := 0 in
  let steer := 0 in
  let motion := if Py.in_ action [0; 4; 5]%Z then motion + acceleration else motion in
  let motion := if Py.in_ action [1; 6; 7]%Z then motion - acceleration else motion in
  let steer := if Py.in_ action [3; 5; 7]%Z then steer - steering else steer in
  let steer := if Py.in_ action [2; 4; 6]%Z then steer + steering else steer in
  (motion, steer).

(** [act_actions] *)
Definition act_actions (action : option Z) (s : t) : t :=
  match action with
  | None => s
  | Some a =>
      let '(motion, steer) := decode a in
      let s := movement motion s in
      set_rotation (rotation s + steer) s
  end.

(** [reset] *)
Definition reset (s : t) : t :=
  set_rotation 0 (set_velocity 0 s).

(** [get_position] *)
Definition get_position (s : t) : Py.Res Vec2 :=
  match car_size_offset s with
  | Some half => Py.Ok (vsub (vadd (position s) (offset s)) half)
  | None => Py.Raise Py.AttributeError
  end.

(** The operations that mutate a sprite, for traces. *)
Inductive Op : Type :=
| OInitialize
| OMovement (acceleration : Q)
| OAct (scaling : Q)
| OActActions (action : option Z)
| OReset.

Definition apply (cos sin : Q -> Q) (o : Op) (s : t) : t :=
  match o with
  | OInitialize => initialize s
  | OMovement a => movement a s
  | OAct k => act cos sin k s
  | OActActions a => act_actions a s
  | OReset => reset s
  end.

Definition run (cos sin : Q -> Q) (ops : list Op) (s : t) : t :=
  fold_left (fun s o => apply cos sin o s) ops s.

Definition in_bounds (v : Q) : Prop :=
  MIN_VELOCITY <= v /\ v <= MAX_VELOCITY.

(** Whether an operation is [initialize]. *)
Definition is_initialize (o : Op) : bool :=
  match o with OInitialize => true | _ => false end.

(** Two sprites with the same attributes, floats compared as numbers. *)
Definition equiv (s s' : t) : Prop :=
  fst (position s) == fst (position s')
  /\ snd (position s) == snd (position s')
  /\ rotation s == rotation s'
  /\ velocity s == velocity s'
  /\ offset s = offset s'
  /\ car_size_offset s = car_size_offset s'.

(** The values of the parameter dict: floats and arrays. *)
Inductive Param : Type :=
| PFloat (q : Q)
| PArray (v : Vec2).

(** A dict with string keys, in insertion order. *)
Definition Dict : Type := list (string * Param).

Fixpoint dict_set (k : string) (v : Param) (d : Dict) : Dict :=
  match d with
  | [] => [(k, v)]
  | (k', v') :: d' =>
      if String.eqb k k' then (k', v) :: d' else (k', v') :: dict_set k v d'
  end.

Fixpoint dict_get (k : string) (d : Dict) : option Param :=
  match d with
  | [] => None
  | (k', v') :: d' => if String.eqb k k' then Some v' else dict_get k d'
  end.

(** [dict.update] *)
Definition dict_update (d u : Dict) : Dict :=
  fold_left (fun d kv => dict_set (fst kv) (snd kv) d) u d.

Definition static_params : Dict :=
  [("acc_max"%string, PFloat MAX_VELOCITY);
   ("acc_min"%string, PFloat MIN_VELOCITY);
   ("acc_amount"%string, PFloat acceleration);
   ("steering_amount"%string, PFloat steering)].

(** [get_params]: a copy of [static_params], updated. *)
Definition get_params (s : t) : Py.Res Dict :=
  let params := static_params in
  pos <- get_position s ;;
  Py.Ok (dict_update params
           [("pos"%string, PArray pos);
            ("acc"%string, PFloat (velocity s));
            ("rot"%string, PFloat (rotation s))]).

End Sprite.

(* ===================================================================== *)
(** ** env.py: constants and the observation pipeline *)
(* ===================================================================== *)

Definition SIZE : Z * Z := (500, 500)%Z.

Definition FPS_CAP : Q := 60.

Definition CLEAR_SCREEN : list Z := [255; 255; 255]%Z.

Definition IMG_MEAN : Q := 0.0707.
Definition IMG_SD : Q := 0.1122.

(** A channel-first float tensor, as nested lists. *)
Definition Tensor : Type := list (list (list Q)).

(** A pygame surface of extent [SIZE]: the colour at column [x], row [y]. *)
Definition Surface : Type := Z -> Z -> list Z.

(** A numpy array of shape [(n0, n1, bands)]. *)
Record NdArray : Type := mkArray {
  n0 : Z;
  n1 : Z;
  at_ : Z -> Z -> list Z
}.

(** A PIL image: the bands of the pixel at column [x], row [y]. *)
Record Image : Type := mkImage {
  bands : nat;
  width : Z;
  height : Z;
  px : Z -> Z -> list Z
}.

Definition zrange (n : Z) : list Z := map Z.of_nat (seq 0 (Z.to_nat n)).

(** [pygame.surfarray.pixels3d]: indexed [data[x][y]]. *)
Definition pixels3d (s : Surface) : NdArray :=
  mkArray (fst SIZE) (snd SIZE) s.

(** [np.rollaxis(data, 0, 1)]: axis 0 is rolled to lie before position 1,
    where it already is. *)
Definition rollaxis_0_1 (a : NdArray) : NdArray := a.

(** [a[::-1, :, :]] *)
Definition flip_axis0 (a : NdArray) : NdArray :=
  mkArray (n0 a) (n1 a) (fun i j => at_ a (n0 a - 1 - i)%Z j).

(** [Image.fromarray(a, mode = "RGB")]: rows are axis 0. *)
Definition fromarray (a : NdArray) : Image :=
  mkImage 3 (n1 a) (n0 a) (fun x y => at_ a y x).

(** [image.rotate(270)] on a square image: the quarter turn that sends the
    top-left corner to the top-right one. *)
Definition rotate270 (im : Image) : Image :=
  mkImage (bands im) (height im) (width im)
          (fun x y => px im y (height im - 1 - x)%Z).

(** [image.crop(box)]: pixels outside the image are black. *)
Definition crop (box : Z * Z * Z * Z) (im : Image) : Image :=
  let '(l, u, r, b) := box in
  mkImage (bands im) (r - l) (b - u)
          (fun x y =>
             let sx := (x + l)%Z in
             let sy := (y + u)%Z in
             if ((0 <=? sx) && (sx <? width im) && (0 <=? sy) && (sy <? height im))%Z
             then px im sx sy
             else repeat 0%Z (bands im)).

(** [image.convert(mode = "L")]: the ITU-R 601-2 luma transform, in the
    library's fixed-point arithmetic: the weights 299/1000, 587/1000 and
    114/1000 scaled by 2^16, half added, shifted back. *)
Definition luma (p : list Z) : Z :=
  match p with
  | [r; g; b] => Z.shiftr (r * 19595 + g * 38470 + b * 7471 + 32768) 16
  | [l] => l
  | _ => 0%Z
  end.

Definition convert_L (im : Image) : Image :=
  mkImage 1 (width im) (height im) (fun x y => [luma (px im x y)]).

(** The crop box of [create_snapshot]:
    [lu = np.maximum((center - size / 2).astype(int), (0, 0))],
    [rl = lu + size]; the box is [lu] followed by [rl]. *)
Definition crop_box (size : Z * Z) (center : Vec2) : Z * Z * Z * Z :=
  let half : Vec2 := (inject_Z (fst size) / 2, inject_Z (snd size) / 2) in
  let d := vsub center half in
  let lu := (Z.max (Py.astype_int (fst d)) 0,
             Z.max (Py.astype_int (snd d)) 0) in
  let rl := (fst lu + fst size, snd lu + snd size)%Z in
  (fst lu, snd lu, fst rl, snd rl).

(** [torch.from_numpy(np.asarray(image)).float()] of an image with several
    bands, after [.transpose(1, 2).transpose(0, 1)]: rows-columns-bands
    becomes bands-rows-columns. *)
Definition tensor_chw (im : Image) : Tensor :=
  map (fun c =>
         map (fun y =>
                map (fun x => inject_Z (nth c (px im x y) 0%Z))
                    (zrange (width im)))
             (zrange (height im)))
      (seq 0 (bands im)).

(** [torch.from_numpy(np.asarray(image)).float()] of a one-band image,
    after [.unsqueeze(dim = 0)]. *)
Definition tensor_unsqueezed (im : Image) : Tensor :=
  [map (fun y =>
          map (fun x => inject_Z (nth 0 (px im x y) 0%Z))
              (zrange (width im)))
       (zrange (height im))].

Definition tensor_div (t : Tensor) (k : Q) : Tensor :=
  map (map (map (fun v => v / k))) t.

(** What [create_snapshot] returns, by the flags [raw] and [tensor]. *)
Inductive Snapshot : Type :=
| SnapTensor (raw_image_tensor : Tensor) (image : Image)
| SnapRaw (raw_image : Image) (image : Image)
| SnapImage (image : Image).

(** [create_snapshot]; writing the file under [save] leaves no trace in
    the returned value. *)
Definition create_snapshot (surface : Surface) (size : option (Z * Z))
    (center : option Vec2) (save raw normalize tensor grayscale : bool)
    : Snapshot :=
  let data := pixels3d surface in
  let image := fromarray (flip_axis0 (rollaxis_0_1 data)) in
  let image := rotate270 image in
  let image :=
    match size, center with
    | Some size, Some center => crop (crop_box size center) image
    | _, _ => image
    end in
  let image := if grayscale then convert_L image else image in
  if raw then
    if tensor then
      let raw_image_tensor :=
        if negb grayscale || (1 <? bands image)%nat then tensor_chw image
        else tensor_unsqueezed image in
      let raw_image_tensor :=
        if normalize then tensor_div raw_image_tensor 255
        else raw_image_tensor in
      SnapTensor raw_image_tensor image
    else SnapRaw image image
  else SnapImage image.

(** The crop box lies on the canvas. *)
Definition box_within_canvas (box : Z * Z * Z * Z) : Prop :=
  let '(l, u, r, b) := box in
  (0 <= l /\ 0 <= u /\ r <= fst SIZE /\ b <= snd SIZE)%Z.

(* ===================================================================== *)
(** ** The track collaborator *)
(* ===================================================================== *)

(** Modelled from the spec: the telemetry record of the track, whose
    module is not among the sources
    ("telemetry() -> {alive: bool, progress: float[0,100], lap: int}"). *)
Record Telemetry : Type := mkTelemetry {
  alive : bool;
  progress : Q;
  lap : Z
}.

(** Modelled from the spec: the operations of the track that env.py calls.
    [track_sprite] and [track_with_sprite] read and write the attribute
    [track.sprite]; an argument of [track_reset_track] is [None] where the
    call leaves it to its default. *)
Class TrackCollaborator (T : Type) : Type := {
  track_sprite : T -> Sprite.t;
  track_with_sprite : Sprite.t -> T -> T;
  track_act : Q -> T -> T;
  track_render : T -> Surface -> Surface;
  track_get_params : T -> Telemetry;
  track_reset_track : option bool -> option bool -> T -> T
}.

(** What [state] returns: [(frame, img, params)]. *)
Definition Observation : Type :=
  (option Tensor * option Image * option Telemetry)%type.

(** Keyboard and window input of one [step], and the reading of
    [pygame.time.get_ticks()] (milliseconds) at its synchronisation point. *)
Record Keys : Type := mkKeys {
  K_UP : bool;
  K_DOWN : bool;
  K_LEFT : bool;
  K_RIGHT : bool
}.

Inductive Key : Type := K_ESCAPE | K_PRINT | K_r | K_other.

Inductive Event : Type := QUIT | KEYDOWN (key : Key) | OTHER_EVENT.

Record Input : Type := mkInput {
  keys : Keys;
  events : list Event;
  ticks : Z
}.

(* ===================================================================== *)
(** ** env.py: the environment contract *)
(* ===================================================================== *)

Module BaseEnv.

Definition ENV_ACTION_SPACE : Z := (-1)%Z.

Definition state {E : Type} (frame_active params_active : bool) (e : E)
  : Py.Res Observation * E := (Py.Raise Py.NotImplementedError, e).

Definition step {E : Type} (action : option Z) (sync : bool) (e : E)
  : Py.Res (option Q * bool) * E := (Py.Raise Py.NotImplementedError, e).

Definition event_handler {E : Type} (e : E) : E := e.

Definition reset {E : Type} (random_reset hard_reset : bool) (e : E)
  : Py.Res unit * E := (Py.Raise Py.NotImplementedError, e).

End BaseEnv.

(* ===================================================================== *)
(** ** env.py: the racing environment *)
(* ===================================================================== *)

Module Env.

Definition ENV_ACTION_SPACE : Z := 4.

Section WithTrack.

Context {T : Type} {TC : TrackCollaborator T}.

(** The instance attributes; [prev_time] exists only when the
    environment was built with [agent_active = False], [curr_time]
    only after a synchronised step. *)
Record t : Type := mk {
  frame_size : Z * Z;
  frame_buffer : bool;
  agent_active : bool;
  surface : Surface;
  track : T;
  prev_time : option Z;
  curr_time : option Z;
  attenuation : Q;
  done : bool;
  exit : bool
}.

Definition set_surface (s : Surface) (e : t) : t :=
  mk (frame_size e) (frame_buffer e) (agent_active e) s (track e)
     (prev_time e) (curr_time e) (attenuation e) (done e) (exit e).

Definition set_track (tr : T) (e : t) : t :=
  mk (frame_size e) (frame_buffer e) (agent_active e) (surface e) tr
     (prev_time e) (curr_time e) (attenuation e) (done e) (exit e).

Definition set_curr_time (c : Z) (e : t) : t :=
  mk (frame_size e) (frame_buffer e) (agent_active e) (surface e)
     (track e) (prev_time e) (Some c) (attenuation e) (done e) (exit e).

Definition set_attenuation_prev_time (a : Q) (p : Z) (e : t) : t :=
  mk (frame_size e) (frame_buffer e) (agent_active e) (surface e)
     (track e) (Some p) (curr_time e) a (done e) (exit e).

Definition set_done (d : bool) (e : t) : t :=
  mk (frame_size e) (frame_buffer e) (agent_active e) (surface e)
     (track e) (prev_time e) (curr_time e) (attenuation e) d (exit e).

Definition set_exit (x : bool) (e : t) : t :=
  mk (frame_size e) (frame_buffer e) (agent_active e) (surface e)
     (track e) (prev_time e) (curr_time e) (attenuation e) (done e) x.

(** [__init__]; [track0] is the track after [initialize_track] and
    [initialize_sprite], [now] the reading of the clock. *)
Definition init (frame_size : Z * Z) (frame_buffer agent_active : bool)
    (track0 : T) (now : Z) : t :=
  mk frame_size frame_buffer agent_active (fun _ _ => [0; 0; 0]%Z) track0
     (if negb agent_active then Some now else None) None
     1 false false.

(** [state] *)
Definition state (frame_active params_active : bool) (e : t)
  : Py.Res Observation * t :=
  let shot : Py.Res (option Tensor * option Image) :=
    if frame_active then
      sprite_pos <- Sprite.get_position (track_sprite (track e)) ;;
      match create_snapshot (surface e) (Some (frame_size e))
              (Some sprite_pos) false true true true true with
      | SnapTensor frame img => Py.Ok (Some frame, Some img)
      | _ => Py.Raise Py.TypeError
      end
    else Py.Ok (None, None) in
  match shot with
  | Py.Raise err => (Py.Raise err, e)
  | Py.Ok (frame, img) =>
      let params :=
        if params_active then Some (track_get_params (track e))
        else None in
      if done e then (Py.Ok (frame, img, params), set_done true e)
      else
        match params with
        | None => (Py.Raise Py.TypeError, e)
        | Some p =>
            (Py.Ok (frame, img, params), set_done (negb (alive p)) e)
        end
  end.

(** The call [sprite.steer(...)] that the key presses make, by the
    argument it is written with: the steering amount for LEFT, its
    negative for RIGHT. *)
Definition steer_call (k : Keys) (att : Q) : option Q :=
  if K_LEFT k then Some (Sprite.steering * att)
  else if K_RIGHT k then Some (- Sprite.steering * att)
  else None.

(** The continuous key presses of [event_handler].  sprite.py defines no
    [steer]: the call raises [AttributeError], after the movement of UP or
    DOWN was applied. *)
Definition key_presses (k : Keys) (att : Q) (s : Sprite.t)
  : Py.Res unit * Sprite.t :=
  let s :=
    if K_UP k then Sprite.movement (Sprite.acceleration * att) s
    else if K_DOWN k then Sprite.movement (- Sprite.acceleration * att) s
    else s in
  match steer_call k att with
  | Some _ => (Py.Raise Py.AttributeError, s)
  | None => (Py.Ok tt, s)
  end.

(** One turn of the event loop of [event_handler]; the snapshot taken
    on [K_PRINT] is written to a file and dropped. *)
Definition handle_event (e : t) (ev : Event) : t :=
  match ev with
  | QUIT => set_exit true e
  | KEYDOWN K_ESCAPE => set_exit true e
  | KEYDOWN K_PRINT => e
  | KEYDOWN K_r => set_track (track_reset_track None None (track e)) e
  | _ => e
  end.

(** [event_handler]: an exception of the key presses leaves the event
    queue unread. *)
Definition event_handler (inp : Input) (e : t) : Py.Res unit * t :=
  if negb (frame_buffer e) then
    let '(r, e) :=
      if negb (agent_active e) then
        let '(r, s) :=
          key_presses (keys inp) (attenuation e) (track_sprite (track e)) in
        (r, set_track (track_with_sprite s (track e)) e)
      else (Py.Ok tt, e) in
    match r with
    | Py.Raise err => (Py.Raise err, e)
    | Py.Ok _ => (Py.Ok tt, fold_left handle_event (events inp) e)
    end
  else (Py.Ok tt, e).

(** [step].  sprite.py defines [act_actions] and no [act_action]: with an
    action the call [self.track.sprite.act_action(action)] raises
    [AttributeError], after the surface was cleared and before the track
    is advanced. *)
Definition step (action : option Z) (sync : bool) (inp : Input) (e : t)
  : Py.Res (option Q * bool) * t :=
  match event_handler inp e with
  | (Py.Raise err, e) => (Py.Raise err, e)
  | (Py.Ok _, e) =>
      let e := set_surface (fun _ _ => CLEAR_SCREEN) e in
      match action with
      | Some _ => (Py.Raise Py.AttributeError, e)
      | None =>
          let e := set_track (track_act (attenuation e) (track e)) e in
          let e := set_surface (track_render (track e) (surface e)) e in
          if sync then
            let e := set_curr_time (ticks inp) e in
            match prev_time e with
            | None => (Py.Raise Py.AttributeError, e)
            | Some prev =>
                (Py.Ok (None, false),
                 set_attenuation_prev_time
                   (inject_Z (ticks inp - prev) / (1000 / FPS_CAP))
                   (ticks inp) e)
            end
          else (Py.Ok (None, false), e)
      end
  end.

(** [reset] *)
Definition reset (random_reset hard_reset : bool) (e : t) : t :=
  set_track
    (track_reset_track (Some random_reset) (Some hard_reset) (track e)) e.

(** Calls of the contract, for traces. *)
Inductive Call : Type :=
| CState (frame_active params_active : bool)
| CStep (action : option Z) (sync : bool) (inp : Input)
| CReset (random_reset hard_reset : bool).

(** One call: whether it returned, and the environment after it. *)
Definition call (c : Call) (e : t) : bool * t :=
  match c with
  | CState f p => let '(r, e') := state f p e in (Py.is_ok r, e')
  | CStep a s i => let '(r, e') := step a s i e in (Py.is_ok r, e')
  | CReset r h => (true, reset r h e)
  end.

Definition run (cs : list Call) (e : t) : t :=
  fold_left (fun e c => snd (call c e)) cs e.

(** The clock never runs backwards along a trace: every synchronised
    step reads a time not before the stored timestamp. *)
Fixpoint clock_monotone (cs : list Call) (e : t) : Prop :=
  match cs with
  | [] => True
  | c :: cs' =>
      match c, prev_time e with
      | CStep _ true inp, Some prev => (prev <= ticks inp)%Z
      | _, _ => True
      end
      /\ clock_monotone cs' (snd (call c e))
  end.

(** The attributes the event loop leaves alone. *)
Definition same_config (e e' : t) : Prop :=
  frame_size e' = frame_size e
  /\ frame_buffer e' = frame_buffer e
  /\ agent_active e' = agent_active e
  /\ surface e' = surface e
  /\ prev_time e' = prev_time e
  /\ curr_time e' = curr_time e
  /\ attenuation e' = attenuation e
  /\ done e' = done e.

End WithTrack.

Arguments t T : clear implicits.

End Env.

(* ===================================================================== *)
(** ** env.py: the baseline environment *)
(* ===================================================================== *)

(** The wrapped gym simulator, as far as env.py uses it: [reset],
    [step(action) -> (_, reward, done, _)], [render(mode = 'rgb_array')]
    (rows of pixels of three channels), the constant attribute
    [x_threshold] and the first component of [state]. *)
Class GymSimulator (G : Type) : Type := {
  gym_reset : G -> G;
  gym_step : Z -> G -> Q * bool * G;
  gym_render : G -> list (list (list Z)) * G;
  gym_x_threshold : Q;
  gym_state0 : G -> Q
}.

(** A slice of one axis: [slice(n)], [slice(-n, None)], [slice(lo, hi)]
    with [0 <= lo]. *)
Inductive Slice : Type :=
| SliceTo (n : Z)
| SliceLast (n : Z)
| SliceBetween (lo hi : Z).

Definition take_slice {A : Type} (s : Slice) (l : list A) : list A :=
  match s with
  | SliceTo n => firstn (Z.to_nat n) l
  | SliceLast n => skipn (length l - Z.to_nat n) l
  | SliceBetween lo hi => firstn (Z.to_nat (hi - lo)) (skipn (Z.to_nat lo) l)
  end.

(** [a.transpose((2, 0, 1))] of a rows-by-columns array of RGB pixels. *)
Definition transpose_2_0_1 (a : list (list (list Z))) : list (list (list Z)) :=
  map (fun c => map (map (fun p => nth c p 0%Z)) a) (seq 0 3).

Module Baseline.

Definition ENV_ACTION_SPACE : Z := 2.

Definition screen_width : Z := 600.

Section WithGym.

Context {G : Type} {GS : GymSimulator G}.

(** [done] and [exit] are the class attributes of [BaseEnv]. *)
Record t : Type := mk {
  env : G;
  resizer : Tensor -> Tensor;
  done : bool;
  exit : bool
}.

Definition set_env (g : G) (b : t) : t :=
  mk g (resizer b) (done b) (exit b).

(** [__init__]; [make] is the simulator that [gym.make] hands out and
    [compose] the torchvision pipeline built for a frame size. *)
Definition init (frame_size : Z * Z) (make : G)
    (compose : Z * Z -> Tensor -> Tensor) : t :=
  mk (gym_reset make) (compose frame_size) false false.

(** [get_cart_location] *)
Definition get_cart_location (b : t) : Py.Res Z :=
  let world_width := gym_x_threshold * 2 in
  if Qeq_bool world_width 0 then Py.Raise Py.ZeroDivisionError
  else
    let scale := inject_Z screen_width / world_width in
    Py.Ok (Py.int (gym_state0 (env b) * scale
                   + inject_Z screen_width / 2)).

(** The viewport of [state] for a cart location. *)
Definition slice_range (cart_location : Z) : Slice :=
  let view_width := 320%Z in
  if (cart_location <? view_width / 2)%Z then SliceTo view_width
  else if (screen_width - view_width / 2 <? cart_location)%Z
       then SliceLast view_width
  else SliceBetween (cart_location - view_width / 2)
                    (cart_location + view_width / 2).

(** [state] *)
Definition state (frame_active params_active : bool) (b : t)
  : Py.Res Observation * t :=
  let '(rgb, g) := gym_render (env b) in
  let b := set_env g b in
  let screen := transpose_2_0_1 rgb in
  let screen := map (take_slice (SliceBetween 160 320)) screen in
  match get_cart_location b with
  | Py.Raise err => (Py.Raise err, b)
  | Py.Ok cart_location =>
      let screen :=
        map (map (take_slice (slice_range cart_location))) screen in
      let screen : Tensor :=
        map (map (map (fun v => inject_Z v / 255))) screen in
      let frame := resizer b screen in
      (Py.Ok (Some frame, None, None), b)
  end.

(** [step]; the action is the integer held by the action tensor. *)
Definition step (action : option Z) (sync : bool) (b : t)
  : Py.Res (option Q * bool) * t :=
  match action with
  | Some a =>
      let '(reward, done, g) := gym_step a (env b) in
      (Py.Ok (Some reward, done), set_env g b)
  | None => (Py.Ok (None, false), b)
  end.

(** [reset] *)
Definition reset (random_reset hard_reset : bool) (b : t) : t :=
  set_env (gym_reset (env b)) b.

(** The screen that [state] hands to the resize pipeline, for a rendered
    frame and a cart location: transposed, stripped of the rows outside
    [160:320], cut to the viewport and rescaled. *)
Definition processed_screen (rgb : list (list (list Z)))
    (cart_location : Z) : Tensor :=
  let screen := transpose_2_0_1 rgb in
  let screen := map (take_slice (SliceBetween 160 320)) screen in
  let screen := map (map (take_slice (slice_range cart_location))) screen in
  map (map (map (fun v => inject_Z v / 255))) screen.

(** Calls of the contract, for traces. *)
Inductive Call : Type :=
| CState (frame_active params_active : bool)
| CStep (action : option Z) (sync : bool)
| CReset (random_reset hard_reset : bool).

Definition call (c : Call) (b : t) : t :=
  match c with
  | CState f p => snd (state f p b)
  | CStep a s => snd (step a s b)
  | CReset r h => reset r h b
  end.

Definition run (cs : list Call) (b : t) : t :=
  fold_left (fun b c => call c b) cs b.

End WithGym.

Arguments t G : clear implicits.

End Baseline.

(* ===================================================================== *)
(** ** Action spaces *)
(* ===================================================================== *)

(** The action ids the decode table of [Sprite.act_actions] lists. *)
Definition decode_table_ids : list Z :=
  ([0; 4; 5] ++ [1; 6; 7] ++ [3; 5; 7] ++ [2; 4; 6])%Z.

Definition in_decode_table (action : Z) : bool :=
  Py.in_ action decode_table_ids.

(** Validation of an action id against a declared action-space size, as
    the spec words it: the ids of a space of size [n] are [0 .. n-1]. *)
Definition valid_action (space : Z) (action : Z) : bool :=
  ((0 <=? action) && (action <? space))%Z.

(* ===================================================================== *)
(** ** Collaborators to run the environments on *)
(* ===================================================================== *)

Module Demo.

(** Modelled from the spec: a track collaborator (the track module is not
    among the sources), here a straight lane along the first axis of the
    canvas.  [advance] moves the agent along the lane and the agent stays
    alive while its position is on the canvas; [telemetry] reports
    [alive], the progress along the lane in percent and the lap count;
    [resetWorld] puts the agent back at rest at the start of the lane. *)
Record Lane : Type := mkLane {
  lane_sprite : Sprite.t;
  lane_alive : bool;
  lane_lap : Z
}.

Definition on_canvas (p : Vec2) : bool :=
  Qle_bool 0 (fst p) && Qle_bool (fst p) (inject_Z (fst SIZE)).

Definition lane_act (att : Q) (l : Lane) : Lane :=
  let s := Sprite.act (fun _ => 1) (fun _ => 0) att (lane_sprite l) in
  mkLane s (lane_alive l && on_canvas (Sprite.position s)) (lane_lap l).

Definition lane_render (l : Lane) (surf : Surface) : Surface :=
  let p := Sprite.position (lane_sprite l) in
  fun x y =>
    if ((x =? Py.int (fst p)) && (y =? Py.int (snd p)))%Z
    then [255; 0; 0]%Z else surf x y.

Definition lane_params (l : Lane) : Telemetry :=
  mkTelemetry (lane_alive l)
              (fst (Sprite.position (lane_sprite l)) / 5) (lane_lap l).

Definition lane_reset (random_reset hard_reset : option bool) (l : Lane)
  : Lane :=
  mkLane (Sprite.set_position (0, 250) (Sprite.reset (lane_sprite l)))
         true 0.

#[global] Instance lane_track : TrackCollaborator Lane := {
  track_sprite := lane_sprite;
  track_with_sprite := fun s l => mkLane s (lane_alive l) (lane_lap l);
  track_act := lane_act;
  track_render := lane_render;
  track_get_params := lane_params;
  track_reset_track := lane_reset
}.

(** A lane with the agent at rest at [p]. *)
Definition lane_at (p : Vec2) (is_alive : bool) : Lane :=
  mkLane (Sprite.initialize (Sprite.init p 0 (0, 0))) is_alive 0.

(** Modelled from the spec: a wrapped simulator ("opaque collaborator
    exposing reset, step(actionValue) -> (obs, reward, done, info), and
    render -> rawPixels, plus scalar state needed to locate a reference
    object on screen"): a cart on a rail, pushed left by action 0 and
    right by any other, that counts its ticks. *)
Record Cart : Type := mkCart {
  cart_x : Q;
  cart_ticks : Z
}.

Definition cart_step (a : Z) (c : Cart) : Q * bool * Cart :=
  let x := if (a =? 0)%Z then cart_x c - 0.1 else cart_x c + 0.1 in
  (1, negb (Qle_bool (-2.4) x && Qle_bool x 2.4),
   mkCart x (cart_ticks c + 1)).

(** A frame of 400 rows and 600 columns: white, the cart's column
    black. *)
Definition cart_render (c : Cart) : list (list (list Z)) * Cart :=
  let col := Py.int (cart_x c * 125 + 300) in
  let row :=
    map (fun x => if (x =? col)%Z then [0; 0; 0]%Z else [255; 255; 255]%Z)
        (zrange 600) in
  (repeat row 400, c).

#[global] Instance cart_gym : GymSimulator Cart := {
  gym_reset := fun _ => mkCart 0 0;
  gym_step := cart_step;
  gym_render := cart_render;
  gym_x_threshold := 2.4;
  gym_state0 := cart_x
}.

(** A headless, agent-driven racing environment on the lane. *)
Definition racer (p : Vec2) (is_alive : bool) : Env.t Lane :=
  Env.init (84, 84)%Z true true (lane_at p is_alive) 0.

(** A headless, timed racing environment on the lane, built at clock
    reading [now]. *)
Definition timed_racer (now : Z) : Env.t Lane :=
  Env.init (84, 84)%Z true false (lane_at (250, 250) true) now.

(** A windowed racing environment under manual control. *)
Definition manual_racer (now : Z) : Env.t Lane :=
  Env.init (84, 84)%Z false false (lane_at (250, 250) true) now.

Definition no_input (now : Z) : Input :=
  mkInput (mkKeys false false false false) [] now.

(** A baseline environment on the cart, with the identity for the
    resize pipeline. *)
Definition cartpole : Baseline.t Cart :=
  Baseline.init (84, 84)%Z (mkCart 0 0) (fun _ t => t).

End Demo.

(* ===================================================================== *)
(** ** Vocabulary of the further properties *)
(* ===================================================================== *)

(** A tensor of [c] channels of [h] rows of [w] values. *)
Definition has_shape (t : Tensor) (c h w : nat) : Prop :=
  length t = c
  /\ Forall (fun ch => length ch = h
                       /\ Forall (fun row => length row = w) ch) t.

(** Every value of the tensor lies in [[lo, hi]]. *)
Definition tensor_within (t : Tensor) (lo hi : Q) : Prop :=
  Forall (Forall (Forall (fun v => lo <= v /\ v <= hi))) t.

(** An RGB pixel of three bytes. *)
Definition valid_pixel (p : list Z) : bool :=
  match p with
  | [r; g; b] =>
      ((0 <=? r) && (r <=? 255) && (0 <=? g) && (g <=? 255)
       && (0 <=? b) && (b <=? 255))%Z
  | _ => false
  end.

(** The point lies on the canvas. *)
Definition on_canvas (x y : Z) : bool :=
  ((0 <=? x) && (x <? fst SIZE) && (0 <=? y) && (y <? snd SIZE))%Z.

(** The events on which [event_handler] sets [exit]. *)
Definition is_exit_event (ev : Event) : bool :=
  match ev with
  | QUIT => true
  | KEYDOWN K_ESCAPE => true
  | _ => false
  end.

(** [n] times the action [action]. *)
Definition repeat_action (action : Z) (n : nat) (s : Sprite.t) : Sprite.t :=
  Nat.iter n (Sprite.act_actions (Some action)) s.

(* ===================================================================== *)
(** ** Properties of the agent physics model *)
(* ===================================================================== *)

Section SpriteFacts.

Import Sprite.

Lemma ltb_true a b : Py.ltb a b = true -> a < b.
Proof.
  unfold Py.ltb. destruct (Qcompare_spec a b); try discriminate. auto.
Qed.

Lemma ltb_false a b : Py.ltb a b = false -> b <= a.
Proof.
  unfold Py.ltb. destruct (Qcompare_spec a b) as [E|L|G]; try discriminate;
    intros _; [rewrite E; apply Qle_refl | apply Qlt_le_weak; exact G].
Qed.

Lemma bounds_ordered : MIN_VELOCITY < MAX_VELOCITY.
Proof. reflexivity. Qed.

Lemma zero_in_bounds : in_bounds 0.
Proof. split; discriminate. Qed.

(** The clamp of [movement] lands in the bounds from any velocity. *)
Lemma movement_in_bounds a s : in_bounds (velocity (movement a s)).
Proof.
  unfold movement, in_bounds.
  destruct (Py.ltb MAX_VELOCITY (velocity s + a)) eqn:Hmax; simpl.
  - split; [discriminate | apply Qle_refl].
  - destruct (Py.ltb (velocity s + a) MIN_VELOCITY) eqn:Hmin; simpl.
    + split; [apply Qle_refl | discriminate].
    + split; [apply ltb_false, Hmin | apply ltb_false, Hmax].
Qed.

(** Inside the bounds the clamp is the identity. *)
Lemma movement_inside a s :
  in_bounds (velocity s + a) -> velocity (movement a s) == velocity s + a.
Proof.
  intros [Hlo Hhi]. unfold movement.
  destruct (Py.ltb MAX_VELOCITY (velocity s + a)) eqn:Hmax.
  - apply ltb_true in Hmax. lra.
  - destruct (Py.ltb (velocity s + a) MIN_VELOCITY) eqn:Hmin; simpl.
    + apply ltb_true in Hmin. lra.
    + reflexivity.
Qed.

(** [movement] respects the equality of rationals. *)
Lemma movement_velocity_compat a b s :
  a == b -> velocity (movement a s) == velocity (movement b s).
Proof.
  intros E. unfold movement, Py.ltb.
  assert (Ev : velocity s + a == velocity s + b) by (rewrite E; reflexivity).
  rewrite (Qcompare_comp _ _ (Qeq_refl MAX_VELOCITY) _ _ Ev).
  rewrite (Qcompare_comp _ _ Ev _ _ (Qeq_refl MIN_VELOCITY)).
  destruct (MAX_VELOCITY ?= velocity s + b); simpl; try reflexivity;
    destruct (velocity s + b ?= MIN_VELOCITY); simpl;
    try reflexivity; exact Ev.
Qed.

Lemma movement_rotation a s : rotation (movement a s) = rotation s.
Proof.
  unfold movement.
  destruct (Py.ltb _ _); [reflexivity|]. destruct (Py.ltb _ _); reflexivity.
Qed.

Lemma movement_frame a s :
  position (movement a s) = position s
  /\ offset (movement a s) = offset s
  /\ car_size_offset (movement a s) = car_size_offset s.
Proof.
  unfold movement.
  destruct (Py.ltb _ _); [repeat split|].
  destruct (Py.ltb _ _); repeat split.
Qed.

Lemma apply_in_bounds cos sin o s :
  in_bounds (velocity s) -> in_bounds (velocity (apply cos sin o s)).
Proof.
  intros H. destruct o as [ | a | k | [a|] | ]; simpl; auto.
  - apply movement_in_bounds.
  - unfold act_actions. destruct (decode a) as [m st]. simpl.
    apply movement_in_bounds.
  - apply zero_in_bounds.
Qed.

Lemma run_in_bounds cos sin ops : forall s,
  in_bounds (velocity s) -> in_bounds (velocity (run cos sin ops s)).
Proof.
  unfold run. induction ops as [|o ops IH]; intros s H; simpl.
  - exact H.
  - apply IH. apply apply_in_bounds. exact H.
Qed.

(** The ids of the decode table are [0 .. 7]. *)
Lemma in_decode_table_range a :
  in_decode_table a = ((0 <=? a) && (a <=? 7))%Z.
Proof.
  unfold in_decode_table, decode_table_ids, Py.in_. simpl.
  destruct (Z.leb_spec 0 a); destruct (Z.leb_spec a 7); simpl;
    repeat match goal with
           | |- context [Z.eqb a ?k] => destruct (Z.eqb_spec a k); simpl; try lia
           end.
Qed.

Lemma decode_outside a :
  in_decode_table a = false -> decode a = (0, 0).
Proof.
  rewrite in_decode_table_range. intros H.
  unfold decode, Py.in_. simpl.
  repeat match goal with
         | |- context [Z.eqb a ?k] => destruct (Z.eqb_spec a k); [lia|]
         end.
  reflexivity.
Qed.

End SpriteFacts.

(** C9.  The velocity of the agent physics model always lies within
    [MIN_VELOCITY, MAX_VELOCITY]: it is 0 at construction; [movement] with
    any delta, from any sprite, leaves a velocity within the bounds; and
    after any sequence of sprite operations (initialize, movement, act,
    act_actions, reset) applied to a new sprite the velocity is within the
    bounds. *)
Theorem velocity_always_within_bounds
    (cos sin : Q -> Q) (position : Vec2) (rotation : Q) (offset : Vec2)
    (ops : list Sprite.Op) (delta : Q) (s : Sprite.t) :
  Sprite.velocity (Sprite.init position rotation offset) = 0
  /\ Sprite.in_bounds (Sprite.velocity (Sprite.movement delta s))
  /\ Sprite.in_bounds
       (Sprite.velocity
          (Sprite.run cos sin ops (Sprite.init position rotation offset))).
Proof.
  split; [reflexivity|]. split.
  - apply movement_in_bounds.
  - apply run_in_bounds. simpl. apply zero_in_bounds.
Qed.

(** C8.  For an action id outside the decode table (outside [0, 7]) and a
    sprite whose velocity is within the bounds, [act_actions] decodes zero
    motion and zero steering and leaves velocity and rotation (and
    position) as they were; [act_actions] is a total function, so no
    exception arises. *)
Theorem unmapped_action_is_silent_noop (action : Z) (s : Sprite.t) :
  (action < 0 \/ 7 < action)%Z ->
  Sprite.in_bounds (Sprite.velocity s) ->
  Sprite.decode action = (0, 0)
  /\ Sprite.velocity (Sprite.act_actions (Some action) s) == Sprite.velocity s
  /\ Sprite.rotation (Sprite.act_actions (Some action) s) == Sprite.rotation s
  /\ Sprite.position (Sprite.act_actions (Some action) s) = Sprite.position s.
Proof.
  intros Hout Hb.
  assert (Ht : in_decode_table action = false).
  { rewrite in_decode_table_range.
    destruct (Z.leb_spec 0 action); destruct (Z.leb_spec action 7);
      simpl; try reflexivity; lia. }
  pose proof (decode_outside action Ht) as Hd.
  split; [exact Hd|].
  unfold Sprite.act_actions. rewrite Hd. simpl.
  rewrite movement_rotation.
  destruct (movement_frame 0 s) as [Hp _].
  split; [|split]; [ | ring | exact Hp].
  rewrite movement_inside.
  - ring.
  - destruct Hb as [Hlo Hhi]. split.
    + rewrite Qplus_0_r. exact Hlo.
    + rewrite Qplus_0_r. exact Hhi.
Qed.

Lemma unmapped_action_is_silent_noop_witness :
  let s := Sprite.init (0, 0) 0 (0, 0) in
  Sprite.decode 8 = (0, 0)
  /\ Sprite.velocity (Sprite.act_actions (Some 8%Z) s) == Sprite.velocity s
  /\ Sprite.rotation (Sprite.act_actions (Some 8%Z) s) == Sprite.rotation s
  /\ Sprite.position (Sprite.act_actions (Some 8%Z) s) = Sprite.position s.
Proof.
  apply (unmapped_action_is_silent_noop 8 (Sprite.init (0, 0) 0 (0, 0))).
  - right. lia.
  - simpl. split; discriminate.
Defined.

(** C7 (as the code has it).  Each of the action ids 0 .. 7 decodes to its
    pair: 0 accelerate, 1 decelerate, 2 positive steering, 3 negative
    steering, 4 accelerate with positive steering, 5 accelerate with
    negative steering, 6 decelerate with positive steering, 7 decelerate
    with negative steering; [act_actions] applies the pair (clamped
    movement, then rotation) to any sprite.  Positive steering is the
    direction of the manual LEFT key: the key presses write the steering
    call with [+ steering * attenuation] for LEFT and with
    [- steering * attenuation] for RIGHT, which at attenuation 1 are the
    steering deltas of id 4 and of id 5, and UP applies the movement of
    the ids 0, 4 and 5. *)
Theorem decode_table (s : Sprite.t) (att : Q) (up down left right : bool) :
  let a := Sprite.acceleration in
  let w := Sprite.steering in
  map Sprite.decode [0; 1; 2; 3; 4; 5; 6; 7]%Z
  = [(a, 0); (- a, 0); (0, w); (0, - w);
     (a, w); (a, - w); (- a, w); (- a, - w)]
  /\ (forall id : Z,
        Sprite.act_actions (Some id) s
        = Sprite.set_rotation
            (Sprite.rotation (Sprite.movement (fst (Sprite.decode id)) s)
             + snd (Sprite.decode id))
            (Sprite.movement (fst (Sprite.decode id)) s))
  /\ Env.steer_call (mkKeys up down true right) att = Some (w * att)
  /\ Env.steer_call (mkKeys up down false true) att = Some (- w * att)
  /\ w * 1 == snd (Sprite.decode 4)
  /\ - w * 1 == snd (Sprite.decode 5)
  /\ Sprite.velocity
       (snd (Env.key_presses (mkKeys true down left right) 1 s))
     == Sprite.velocity (Sprite.act_actions (Some 4%Z) s)
  /\ Sprite.velocity (Sprite.act_actions (Some 5%Z) s)
     == Sprite.velocity (Sprite.act_actions (Some 4%Z) s).
Proof.
  intros a w. split; [reflexivity|]. split.
  - intros id. unfold Sprite.act_actions.
    destruct (Sprite.decode id) as [m st]. reflexivity.
  - split; [reflexivity|]. split; [reflexivity|].
    split; [reflexivity|]. split; [reflexivity|].
    assert (E : Sprite.acceleration * 1 == 0 + Sprite.acceleration) by ring.
    pose proof (movement_velocity_compat _ _ s E) as Hv.
    split.
    + unfold Env.key_presses, Sprite.act_actions. simpl.
      destruct (Env.steer_call _ _); simpl; exact Hv.
    + unfold Sprite.act_actions. simpl. reflexivity.
Qed.

(** C7, the claim as worded fails: for accelerate with steer right (UP and
    RIGHT held, attenuation 1) the manual controls write the steering
    call with [- steering], the steering delta of id 5 and not the
    [+ steering] of id 4; and the call itself raises, so that the rotation
    is not changed by [+ steering] either. *)
Lemma steer_right_is_negative_steering :
  let s := Sprite.initialize (Sprite.init (0, 0) 0 (0, 0)) in
  let keys := mkKeys true false false true in
  Env.steer_call keys 1 = Some (- Sprite.steering * 1)
  /\ - Sprite.steering * 1 == snd (Sprite.decode 5)
  /\ ~ - Sprite.steering * 1 == snd (Sprite.decode 4)
  /\ ~ - Sprite.steering * 1 == Sprite.steering
  /\ fst (Env.key_presses keys 1 s) = Py.Raise Py.AttributeError
  /\ Sprite.velocity (snd (Env.key_presses keys 1 s))
     == Sprite.velocity s + Sprite.acceleration
  /\ ~ Sprite.rotation (snd (Env.key_presses keys 1 s))
       == Sprite.rotation s + Sprite.steering.
Proof.
  vm_compute. repeat split; discriminate.
Qed.

(* ===================================================================== *)
(** ** Action spaces *)
(* ===================================================================== *)

(** C4 (as the code has it).  The racing environment declares an action
    space of size 4: validating an action id against it accepts exactly
    the ids 0 .. 3, each of which is in the decode table; the decode table
    accepts the ids 0 .. 7, so the combined ids 4 .. 7 are decodable and
    outside the declared size.  The baseline variant declares size 2. *)
Theorem declared_action_spaces (action : Z) :
  Env.ENV_ACTION_SPACE = 4%Z
  /\ Baseline.ENV_ACTION_SPACE = 2%Z
  /\ valid_action Env.ENV_ACTION_SPACE action
     = ((0 <=? action) && (action <=? 3))%Z
  /\ in_decode_table action = ((0 <=? action) && (action <=? 7))%Z
  /\ valid_action Env.ENV_ACTION_SPACE action && negb (in_decode_table action)
     = false
  /\ in_decode_table action && negb (valid_action Env.ENV_ACTION_SPACE action)
     = ((4 <=? action) && (action <=? 7))%Z.
Proof.
  rewrite in_decode_table_range.
  unfold valid_action, Env.ENV_ACTION_SPACE, Baseline.ENV_ACTION_SPACE.
  repeat split;
    destruct (Z.leb_spec 0 action); destruct (Z.leb_spec action 7);
    destruct (Z.leb_spec action 3); destruct (Z.ltb_spec action 4);
    destruct (Z.leb_spec 4 action); simpl; try reflexivity; lia.
Qed.

(** C4, the claim as worded fails: action id 7 is accepted by the decode
    table and rejected by the validation against the declared size. *)
Lemma decodable_id_outside_declared_space :
  in_decode_table 7 = true
  /\ valid_action Env.ENV_ACTION_SPACE 7 = false
  /\ ~ (forall action : Z,
          in_decode_table action = true ->
          valid_action Env.ENV_ACTION_SPACE action = true).
Proof.
  split; [reflexivity|]. split; [reflexivity|].
  intros H. specialize (H 7%Z eq_refl). discriminate H.
Qed.

(* ===================================================================== *)
(** ** Properties of the observation crop *)
(* ===================================================================== *)

(** The flip, the conversion and the quarter turn of [create_snapshot]
    bring the surface to the image with the same coordinates. *)
Lemma snapshot_image_is_surface (s : Surface) (x y : Z) :
  px (rotate270 (fromarray (flip_axis0 (rollaxis_0_1 (pixels3d s))))) x y
  = s x y.
Proof.
  unfold rotate270, fromarray, flip_axis0, rollaxis_0_1, pixels3d.
  cbn [px at_ n0 n1 height width].
  replace (fst SIZE - 1 - (fst SIZE - 1 - x))%Z with x by lia.
  reflexivity.
Qed.

(** The clamp of [create_snapshot] holds the box at the left and top edges
    of the canvas, and the box has the configured extent. *)
Lemma crop_box_clamped_low (size : Z * Z) (center : Vec2) :
  let '(l, u, r, b) := crop_box size center in
  (0 <= l /\ 0 <= u /\ r = l + fst size /\ b = u + snd size)%Z.
Proof.
  unfold crop_box. simpl. repeat split; apply Z.le_max_r.
Qed.

(** C2 (the code at the failing input).  With the frame size (84, 84) and
    the crop center (470, 250) the box is (428, 208, 512, 292): its right
    edge is past the canvas edge 500, so the box is not within the
    canvas. *)
Theorem crop_box_past_right_edge :
  crop_box (84, 84)%Z (470, 250) = (428, 208, 512, 292)%Z
  /\ ~ box_within_canvas (crop_box (84, 84)%Z (470, 250)).
Proof.
  split; [reflexivity|].
  vm_compute. intros (_ & _ & H & _). apply H. reflexivity.
Qed.

(* ===================================================================== *)
(** ** Properties of the racing environment *)
(* ===================================================================== *)

Section EnvFacts.

Context {T : Type} {TC : TrackCollaborator T}.

Import Env.

Lemma same_config_refl (e : Env.t T) : same_config e e.
Proof. repeat split. Qed.

Lemma same_config_trans (e1 e2 e3 : Env.t T) :
  same_config e1 e2 -> same_config e2 e3 -> same_config e1 e3.
Proof.
  unfold same_config. intros H1 H2.
  decompose [and] H1. decompose [and] H2.
  repeat split; congruence.
Qed.

Lemma handle_event_config e ev : same_config e (handle_event e ev).
Proof. destruct ev as [ | [ | | | ] | ]; repeat split. Qed.

Lemma event_loop_config evs : forall e,
  same_config e (fold_left handle_event evs e).
Proof.
  induction evs as [|ev evs IH]; intros e; simpl.
  - apply same_config_refl.
  - eapply same_config_trans; [apply handle_event_config | apply IH].
Qed.

Lemma event_handler_config inp e :
  same_config e (snd (event_handler inp e)).
Proof.
  unfold event_handler. destruct (negb (frame_buffer e)).
  - destruct (negb (agent_active e)).
    + destruct (key_presses (keys inp) (attenuation e)
                  (track_sprite (track e))) as [[u|err] s]; simpl.
      * eapply same_config_trans; [|apply event_loop_config].
        repeat split.
      * repeat split.
    + simpl. apply event_loop_config.
  - apply same_config_refl.
Qed.

(** In headless mode the event handler does nothing. *)
Lemma event_handler_headless inp e :
  frame_buffer e = true -> event_handler inp e = (Py.Ok tt, e).
Proof. intros H. unfold event_handler. rewrite H. reflexivity. Qed.

(** The event handler returns exactly when it makes no steering call:
    in headless or agent-driven mode, or with neither LEFT nor RIGHT
    held. *)
Lemma event_handler_returns inp e :
  Py.is_ok (fst (event_handler inp e))
  = frame_buffer e || agent_active e
    || negb (K_LEFT (keys inp) || K_RIGHT (keys inp)).
Proof.
  unfold event_handler, key_presses, steer_call.
  destruct (frame_buffer e); [reflexivity|].
  destruct (agent_active e); [reflexivity|]. simpl.
  destruct (K_LEFT (keys inp)); [reflexivity|].
  destruct (K_RIGHT (keys inp)); reflexivity.
Qed.

Lemma event_handler_ok inp e :
  Py.is_ok (fst (event_handler inp e)) = true ->
  fst (event_handler inp e) = Py.Ok tt.
Proof.
  destruct (event_handler inp e) as [[[]|err] e1]; simpl;
    [reflexivity | discriminate].
Qed.

(** [step] never changes the done flag. *)
Lemma step_done action sync inp e :
  done (snd (step action sync inp e)) = done e.
Proof.
  destruct (event_handler_config inp e)
    as (_ & _ & _ & _ & _ & _ & _ & Hdone).
  unfold step. destruct (event_handler inp e) as [[u|err] e1];
    simpl in *; [|exact Hdone].
  destruct action; [exact Hdone|].
  destruct sync; [destruct (prev_time e1)|]; exact Hdone.
Qed.

(** A step without an action whose event handling returns: the track is
    advanced and rendered. *)
Lemma step_track sync inp e :
  Py.is_ok (fst (event_handler inp e)) = true ->
  let e0 := snd (event_handler inp e) in
  track (snd (step None sync inp e)) = track_act (attenuation e) (track e0)
  /\ surface (snd (step None sync inp e))
     = track_render (track_act (attenuation e) (track e0))
                    (fun _ _ => CLEAR_SCREEN).
Proof.
  intros Hok.
  destruct (event_handler_config inp e)
    as (_ & _ & _ & _ & _ & _ & Hatt & _).
  unfold step. destruct (event_handler inp e) as [[u|err] e1];
    simpl in *; [|discriminate].
  rewrite Hatt.
  destruct sync; [destruct (prev_time e1)|]; split; reflexivity.
Qed.

(** A step without sync keeps the timing attributes, whatever it does. *)
Lemma step_unsynced action inp e :
  attenuation (snd (step action false inp e)) = attenuation e
  /\ prev_time (snd (step action false inp e)) = prev_time e.
Proof.
  destruct (event_handler_config inp e)
    as (_ & _ & _ & _ & Hprev & _ & Hatt & _).
  unfold step. destruct (event_handler inp e) as [[u|err] e1];
    simpl in *; [|split; assumption].
  destruct action; split; assumption.
Qed.

Lemma step_unsynced_returns inp e :
  Py.is_ok (fst (event_handler inp e)) = true ->
  fst (step None false inp e) = Py.Ok (None, false).
Proof.
  intros Hok. unfold step.
  destruct (event_handler inp e) as [[u|err] e1]; simpl in *;
    [reflexivity | discriminate].
Qed.

(** A synchronised step without an action whose event handling returns
    recomputes the attenuation from the stored timestamp, and raises when
    there is none. *)
Lemma step_synced inp e :
  Py.is_ok (fst (event_handler inp e)) = true ->
  match prev_time e with
  | Some prev =>
      fst (step None true inp e) = Py.Ok (None, false)
      /\ attenuation (snd (step None true inp e))
         = inject_Z (ticks inp - prev) / (1000 / FPS_CAP)
      /\ prev_time (snd (step None true inp e)) = Some (ticks inp)
  | None =>
      fst (step None true inp e) = Py.Raise Py.AttributeError
      /\ attenuation (snd (step None true inp e)) = attenuation e
      /\ prev_time (snd (step None true inp e)) = None
      /\ curr_time (snd (step None true inp e)) = Some (ticks inp)
  end.
Proof.
  intros Hok.
  destruct (event_handler_config inp e)
    as (_ & _ & _ & _ & Hprev & _ & Hatt & _).
  unfold step. destruct (event_handler inp e) as [[u|err] e1];
    simpl in *; [|discriminate].
  rewrite Hprev. destruct (prev_time e); simpl; repeat split; assumption.
Qed.

(** Whatever a step does, it either keeps the timing attributes or is a
    synchronised step that returned and recomputed them. *)
Lemma step_timing action sync inp e :
  (attenuation (snd (step action sync inp e)) = attenuation e
   /\ prev_time (snd (step action sync inp e)) = prev_time e)
  \/ (exists prev,
        sync = true /\ prev_time e = Some prev
        /\ attenuation (snd (step action sync inp e))
           = inject_Z (ticks inp - prev) / (1000 / FPS_CAP)
        /\ prev_time (snd (step action sync inp e)) = Some (ticks inp)).
Proof.
  destruct (event_handler_config inp e)
    as (_ & _ & _ & _ & Hprev & _ & Hatt & _).
  unfold step. destruct (event_handler inp e) as [[u|err] e1];
    simpl in *; [|left; split; assumption].
  destruct action; [left; split; assumption|].
  destruct sync; [|left; split; assumption].
  simpl. rewrite Hprev. destruct (prev_time e) as [prev|] eqn:Hp; simpl.
  - right. exists prev. repeat split.
  - left. split; assumption.
Qed.

Lemma state_done fa pa e :
  done e = true ->
  done (snd (state fa pa e)) = true.
Proof.
  intros Hd. unfold state.
  destruct (if fa then _ else _) as [[frame img]|err]; simpl; [|exact Hd].
  rewrite Hd. reflexivity.
Qed.

Lemma call_done c e : done e = true -> done (snd (call c e)) = true.
Proof.
  intros Hd. destruct c as [fa pa | a s i | r h]; simpl.
  - pose proof (state_done fa pa e Hd). destruct (state fa pa e). exact H.
  - pose proof (step_done a s i e) as H.
    destruct (step a s i e). simpl in *. congruence.
  - exact Hd.
Qed.

Lemma run_done cs : forall e, done e = true -> done (run cs e) = true.
Proof.
  unfold run. induction cs as [|c cs IH]; intros e Hd; simpl.
  - exact Hd.
  - apply IH. apply call_done. exact Hd.
Qed.

End EnvFacts.

(** C1 (the code at the failing input).  On an environment that is not
    done, [state] with [params_active = False] raises and leaves the
    environment as it was, whatever [frame_active] is: the update of the
    done flag subscripts the absent telemetry.  On the lane, the call
    [state(True, False)] raises [TypeError]. *)
Theorem state_without_telemetry_raises
    {T : Type} {TC : TrackCollaborator T} (frame_active : bool)
    (e : Env.t T) :
  (exists err,
      Env.state frame_active false (Env.set_done false e)
      = (Py.Raise err, Env.set_done false e))
  /\ fst (Env.state true false (Demo.racer (250, 250) true))
     = Py.Raise Py.TypeError.
Proof.
  split.
  - unfold Env.state.
    destruct (if frame_active then _ else _) as [[frame img]|err].
    + exists Py.TypeError. reflexivity.
    + exists err. reflexivity.
  - vm_compute. reflexivity.
Qed.

(** C3 (as the code has it).  The done flag is monotonic: once a [state]
    call has read telemetry with [alive = False], the flag is set, and it
    stays set after any further calls of [state], [step] and [reset];
    [reset] only delegates to the track and leaves the flag as it is.
    With the flag set, [state] returns also when no telemetry is
    requested. *)
Theorem done_is_monotonic
    {T : Type} {TC : TrackCollaborator T} (e : Env.t T)
    (frame_active params_active : bool) (cs : list Env.Call)
    (random_reset hard_reset : bool) :
  alive (track_get_params (Env.track e)) = false ->
  Py.is_ok (fst (Env.state frame_active true e)) = true ->
  let e1 := snd (Env.state frame_active true e) in
  Env.done e1 = true
  /\ Env.done (Env.run cs e1) = true
  /\ Env.done (Env.reset random_reset hard_reset (Env.run cs e1)) = true
  /\ Env.done (Env.reset random_reset hard_reset e1) = Env.done e1
  /\ Py.is_ok (fst (Env.state false params_active (Env.run cs e1))) = true.
Proof.
  intros Halive Hok e1.
  assert (H1 : Env.done e1 = true).
  { subst e1. revert Hok. unfold Env.state.
    destruct (if frame_active then _ else _) as [[frame img]|err]; simpl.
    - destruct (Env.done e); simpl; [reflexivity|].
      rewrite Halive. reflexivity.
    - discriminate. }
  pose proof (run_done cs e1 H1) as H2.
  repeat split; try assumption.
  unfold Env.state. simpl. rewrite H2. reflexivity.
Qed.

Lemma done_is_monotonic_witness :
  let e1 := snd (Env.state false true (Demo.racer (250, 250) false)) in
  let cs := [Env.CState false false; Env.CReset false false;
             Env.CStep (Some 0%Z) false (Demo.no_input 0);
             Env.CState false true] in
  Env.done e1 = true
  /\ Env.done (Env.run cs e1) = true
  /\ Env.done (Env.reset false false (Env.run cs e1)) = true
  /\ Env.done (Env.reset false false e1) = Env.done e1
  /\ Py.is_ok (fst (Env.state false false (Env.run cs e1))) = true.
Proof.
  apply (done_is_monotonic (Demo.racer (250, 250) false) false false
           [Env.CState false false; Env.CReset false false;
            Env.CStep (Some 0%Z) false (Demo.no_input 0);
            Env.CState false true] false false).
  - reflexivity.
  - reflexivity.
Defined.

(** C3, the claim as worded fails: after telemetry has reported
    [alive = False], [reset] puts the track back (telemetry reports alive
    again) and the done flag is still set, also after the next [state]
    call. *)
Lemma reset_leaves_done_set :
  let e1 := snd (Env.state false true (Demo.racer (250, 250) false)) in
  let e2 := Env.reset false false e1 in
  Env.done e1 = true
  /\ alive (track_get_params (Env.track e2)) = true
  /\ Env.done e2 = true
  /\ Env.done e2 <> false
  /\ Env.done (snd (Env.state false true e2)) = true.
Proof.
  vm_compute. repeat split; discriminate.
Qed.

(* ===================================================================== *)
(** ** The attenuation factor *)
(* ===================================================================== *)

Lemma attenuation_formula (d : Z) :
  inject_Z d / (1000 / FPS_CAP) == inject_Z d * (3 # 50).
Proof. unfold FPS_CAP. field. Qed.

Lemma attenuation_formula_nonneg (d : Z) :
  (0 <= d)%Z -> 0 <= inject_Z d / (1000 / FPS_CAP).
Proof.
  intros H. rewrite attenuation_formula. rewrite Zle_Qle in H.
  change (inject_Z 0) with 0 in H. lra.
Qed.

Lemma attenuation_formula_pos (d : Z) :
  0 < inject_Z d / (1000 / FPS_CAP) <-> (0 < d)%Z.
Proof.
  rewrite attenuation_formula. rewrite Zlt_Qlt.
  change (inject_Z 0) with 0. split; intros; lra.
Qed.

Section AttenuationFacts.

Context {T : Type} {TC : TrackCollaborator T}.

Import Env.

Lemma state_timing fa pa (e : Env.t T) :
  attenuation (snd (state fa pa e)) = attenuation e
  /\ prev_time (snd (state fa pa e)) = prev_time e.
Proof.
  unfold state.
  destruct (if fa then _ else _) as [[frame img]|err]; simpl; [|split; reflexivity].
  destruct (done e); simpl; [split; reflexivity|].
  destruct pa; simpl; split; reflexivity.
Qed.

Lemma call_attenuation_nonneg c (e : Env.t T) :
  0 <= attenuation e ->
  clock_monotone [c] e ->
  0 <= attenuation (snd (call c e)).
Proof.
  intros H0 [Hc _]. destruct c as [fa pa | a s i | r h]; simpl.
  - destruct (state_timing fa pa e) as [Ha _].
    destruct (state fa pa e). simpl in *. rewrite Ha. exact H0.
  - destruct (step_timing a s i e) as [[Ha _]|(prev & Hs & Hp & Ha & _)];
      destruct (step a s i e); simpl in *; rewrite Ha.
    + exact H0.
    + subst s. rewrite Hp in Hc.
      apply attenuation_formula_nonneg. lia.
  - exact H0.
Qed.

Lemma run_attenuation_nonneg cs : forall e : Env.t T,
  0 <= attenuation e ->
  clock_monotone cs e ->
  0 <= attenuation (run cs e).
Proof.
  unfold run. induction cs as [|c cs IH]; intros e H0 Hm; simpl.
  - exact H0.
  - destruct Hm as [Hc Hm]. apply IH; [|exact Hm].
    apply call_attenuation_nonneg; [exact H0|]. split; [exact Hc|exact I].
Qed.

(** Without a stored timestamp no call changes the attenuation. *)
Lemma call_untimed c (e : Env.t T) :
  prev_time e = None ->
  prev_time (snd (call c e)) = None
  /\ attenuation (snd (call c e)) = attenuation e.
Proof.
  intros Hp. destruct c as [fa pa | a s i | r h]; simpl.
  - destruct (state_timing fa pa e) as [Ha Hq].
    destruct (state fa pa e). simpl in *. split; congruence.
  - destruct (step_timing a s i e) as [[Ha Hq]|(prev & _ & Hq & _)];
      [|congruence].
    destruct (step a s i e). simpl in *. split; congruence.
  - split; [exact Hp | reflexivity].
Qed.

Lemma run_untimed cs : forall e : Env.t T,
  prev_time e = None -> attenuation (run cs e) = attenuation e.
Proof.
  unfold run. induction cs as [|c cs IH]; intros e Hp; simpl.
  - reflexivity.
  - destruct (call_untimed c e Hp) as [Hq Ha].
    rewrite IH by exact Hq. exact Ha.
Qed.

End AttenuationFacts.

(** C5 (as the code has it).  The attenuation factor is 1 at construction;
    in agent-driven mode it stays 1 through every sequence of calls; a
    step without sync leaves it as it is; a synchronised step without an
    action of a timed environment, its event handling returning, returns
    and sets it to the clock milliseconds elapsed since the stored
    timestamp divided by the nominal frame duration 1000 / 60, which is
    positive exactly when the clock has advanced and 0 when the two
    readings coincide.  Along every sequence of calls on which the clock
    never runs backwards it is never negative. *)
Theorem attenuation_is_never_negative
    {T : Type} {TC : TrackCollaborator T}
    (frame_size : Z * Z) (frame_buffer agent_active : bool) (track0 : T)
    (now : Z) (cs : list Env.Call)
    (e : Env.t T) (prev : Z) (action : option Z) (inp : Input) :
  Env.clock_monotone cs
    (Env.init frame_size frame_buffer agent_active track0 now) ->
  Env.prev_time e = Some prev ->
  Py.is_ok (fst (Env.event_handler inp e)) = true ->
  let e0 := Env.init frame_size frame_buffer agent_active track0 now in
  let e' := snd (Env.step None true inp e) in
  Env.attenuation e0 = 1
  /\ Env.attenuation
       (Env.run cs (Env.init frame_size frame_buffer true track0 now)) = 1
  /\ Env.attenuation (snd (Env.step action false inp e)) = Env.attenuation e
  /\ 0 <= Env.attenuation (Env.run cs e0)
  /\ fst (Env.step None true inp e) = Py.Ok (None, false)
  /\ Env.attenuation e' = inject_Z (ticks inp - prev) / (1000 / FPS_CAP)
  /\ Env.prev_time e' = Some (ticks inp)
  /\ (0 < Env.attenuation e' <-> (prev < ticks inp)%Z)
  /\ (ticks inp = prev -> Env.attenuation e' == 0).
Proof.
  intros Hm Hp Hev e0 e'.
  pose proof (step_synced inp e Hev) as Hs. rewrite Hp in Hs.
  destruct Hs as (Hok & Ha & Hq).
  destruct (step_unsynced action inp e) as (Hu & _).
  split; [reflexivity|].
  split; [rewrite run_untimed; reflexivity|].
  split; [exact Hu|].
  split; [apply run_attenuation_nonneg; [discriminate | exact Hm]|].
  split; [exact Hok|]. split; [exact Ha|]. split; [exact Hq|].
  subst e'. rewrite Ha. split.
  - rewrite attenuation_formula_pos. lia.
  - intros E. rewrite E, Z.sub_diag. reflexivity.
Qed.

Lemma attenuation_is_never_negative_witness :
  let e0 := Demo.manual_racer 5 in
  let up := mkInput (mkKeys true false false false) [KEYDOWN K_r] 22 in
  let cs := [Env.CStep None true up; Env.CState false true;
             Env.CStep (Some 0%Z) true (Demo.no_input 39);
             Env.CStep None true (Demo.no_input 56)] in
  let e' := snd (Env.step None true up e0) in
  0 <= Env.attenuation (Env.run cs e0)
  /\ fst (Env.step None true up e0) = Py.Ok (None, false)
  /\ Env.attenuation e' = inject_Z (22 - 5) / (1000 / FPS_CAP)
  /\ 0 < Env.attenuation e'.
Proof.
  destruct (attenuation_is_never_negative (84, 84)%Z false false
              (Demo.lane_at (250, 250) true) 5
              [Env.CStep None true
                 (mkInput (mkKeys true false false false) [KEYDOWN K_r] 22);
               Env.CState false true;
               Env.CStep (Some 0%Z) true (Demo.no_input 39);
               Env.CStep None true (Demo.no_input 56)]
              (Demo.manual_racer 5) 5 None
              (mkInput (mkKeys true false false false) [KEYDOWN K_r] 22))
    as (_ & _ & _ & Hnn & Hok & Ha & _ & Hpos & _).
  - simpl. repeat split; lia.
  - reflexivity.
  - reflexivity.
  - split; [exact Hnn|]. split; [exact Hok|]. split; [exact Ha|].
    apply Hpos. simpl. lia.
Defined.

(** C5, the claim as worded fails: a synchronised step that reads the
    clock within the millisecond of the stored timestamp returns and sets
    the attenuation to 0, which is not positive. *)
Lemma attenuation_can_be_zero :
  let e' := snd (Env.step None true (Demo.no_input 5) (Demo.timed_racer 5)) in
  fst (Env.step None true (Demo.no_input 5) (Demo.timed_racer 5))
  = Py.Ok (None, false)
  /\ Env.attenuation e' == 0
  /\ ~ 0 < Env.attenuation e'.
Proof.
  vm_compute. repeat split; discriminate.
Qed.

(* ===================================================================== *)
(** ** Stepping without an action *)
(* ===================================================================== *)

(** C6 (as the code has it).  In the racing environment [step] with the
    action absent, in headless or agent-driven mode or with neither LEFT
    nor RIGHT held, applies no action to the agent and still advances the
    simulation by one tick: the track left by the event handler is
    advanced at the current attenuation and rendered on the cleared
    surface, and without sync the call returns [(None, False)].  In the
    baseline environment [step] with the action absent returns
    [(None, False)] and leaves the wrapped simulator as it is. *)
Theorem step_without_action
    {T : Type} {TC : TrackCollaborator T} {G : Type} {GS : GymSimulator G}
    (e : Env.t T) (b : Baseline.t G) (sync : bool) (inp : Input) :
  Env.frame_buffer e || Env.agent_active e
  || negb (K_LEFT (keys inp) || K_RIGHT (keys inp)) = true ->
  let e' := snd (Env.step None sync inp e) in
  Env.track e'
  = track_act (Env.attenuation e)
              (Env.track (snd (Env.event_handler inp e)))
  /\ Env.surface e' = track_render (Env.track e') (fun _ _ => CLEAR_SCREEN)
  /\ Env.done e' = Env.done e
  /\ fst (Env.step None false inp e) = Py.Ok (None, false)
  /\ Baseline.step None sync b = (Py.Ok (None, false), b).
Proof.
  intros Hmode e'. subst e'.
  rewrite <- event_handler_returns in Hmode.
  destruct (step_track sync inp e Hmode) as (Ht & Hs).
  split; [exact Ht|]. split; [rewrite Ht; exact Hs|].
  split; [apply step_done|].
  split; [apply step_unsynced_returns; exact Hmode|]. reflexivity.
Qed.

Lemma step_without_action_witness :
  let e := Demo.manual_racer 0 in
  let inp := mkInput (mkKeys true false false false) [KEYDOWN K_PRINT] 16 in
  let e' := snd (Env.step None true inp e) in
  Env.track e'
  = track_act (Env.attenuation e)
              (Env.track (snd (Env.event_handler inp e)))
  /\ Env.surface e' = track_render (Env.track e') (fun _ _ => CLEAR_SCREEN)
  /\ Env.done e' = Env.done e
  /\ fst (Env.step None false inp e) = Py.Ok (None, false)
  /\ Baseline.step None true Demo.cartpole
     = (Py.Ok (None, false), Demo.cartpole).
Proof.
  apply (step_without_action (Demo.manual_racer 0) Demo.cartpole true
           (mkInput (mkKeys true false false false) [KEYDOWN K_PRINT] 16)).
  reflexivity.
Defined.

(** C6, the claim as worded fails for the baseline variant: [step] with
    the action absent does not advance the wrapped simulator (its tick
    count stays), while a step with an action advances it by one tick. *)
Lemma baseline_step_without_action_does_not_tick :
  let b := Demo.cartpole in
  Baseline.step None false b = (Py.Ok (None, false), b)
  /\ Demo.cart_ticks (Baseline.env (snd (Baseline.step (Some 1%Z) false b)))
     = (Demo.cart_ticks (Baseline.env b) + 1)%Z
  /\ Demo.cart_ticks (Baseline.env (snd (Baseline.step None false b)))
     <> (Demo.cart_ticks (Baseline.env b) + 1)%Z.
Proof.
  vm_compute. repeat split; discriminate.
Qed.

(* ===================================================================== *)
(** ** The baseline observation *)
(* ===================================================================== *)

Section SliceFacts.

Context {A : Type}.

Lemma in_firstn (n : nat) : forall (l : list A) (x : A),
  In x (firstn n l) -> In x l.
Proof.
  induction n as [|n IH]; intros [|a l] x H; simpl in *; try contradiction.
  destruct H as [H|H]; [left; exact H | right; apply IH; exact H].
Qed.

Lemma in_skipn (n : nat) : forall (l : list A) (x : A),
  In x (skipn n l) -> In x l.
Proof.
  induction n as [|n IH]; intros [|a l] x H; simpl in *; try contradiction.
  - exact H.
  - right. apply IH. exact H.
Qed.

Lemma in_take_slice (s : Slice) (l : list A) (x : A) :
  In x (take_slice s l) -> In x l.
Proof.
  destruct s; simpl; intros H.
  - eapply in_firstn; exact H.
  - eapply in_skipn; exact H.
  - eapply in_skipn, in_firstn; exact H.
Qed.

(** The viewport of a row of 600 pixels, as a window of 320 pixels. *)
Lemma viewport_window (cart_location : Z) (row : list A) :
  length row = 600%nat ->
  take_slice (Baseline.slice_range cart_location) row
  = firstn 320
      (skipn (Z.to_nat (Z.max 0 (Z.min 280 (cart_location - 160)))) row).
Proof.
  intros Hlen. unfold Baseline.slice_range, Baseline.screen_width.
  change (320 / 2)%Z with 160%Z. change (600 - 160)%Z with 440%Z.
  change 320%nat with (Z.to_nat 320).
  destruct (Z.ltb_spec cart_location 160) as [H1|H1]; cbn [take_slice].
  - rewrite Z.max_l by lia. reflexivity.
  - destruct (Z.ltb_spec 440 cart_location) as [H2|H2]; cbn [take_slice].
    + rewrite Z.max_r, Z.min_l by lia. rewrite Hlen.
      replace (600 - Z.to_nat 320)%nat with (Z.to_nat 280) by lia.
      symmetry. apply firstn_all2. rewrite length_skipn, Hlen. lia.
    + rewrite Z.max_r, Z.min_r by lia.
      replace (cart_location + 160 - (cart_location - 160))%Z
        with 320%Z by lia.
      reflexivity.
Qed.

Lemma viewport_length (cart_location : Z) (row : list A) :
  length row = 600%nat ->
  length (take_slice (Baseline.slice_range cart_location) row) = 320%nat.
Proof.
  intros Hlen. rewrite viewport_window by exact Hlen.
  rewrite length_firstn, length_skipn, Hlen. lia.
Qed.

End SliceFacts.

Section ScreenFacts.

Lemma transpose_shape (rgb : list (list (list Z))) (h w : nat) :
  length rgb = h ->
  Forall (fun row => length row = w) rgb ->
  Forall (fun ch => length ch = h /\ Forall (fun row => length row = w) ch)
         (transpose_2_0_1 rgb)
  /\ length (transpose_2_0_1 rgb) = 3%nat.
Proof.
  intros Hh Hw. unfold transpose_2_0_1. split.
  - apply Forall_map, Forall_forall. intros c _. split.
    + rewrite length_map. exact Hh.
    + apply Forall_map. eapply Forall_impl; [|exact Hw].
      intros row Hrow. rewrite length_map. exact Hrow.
  - rewrite length_map. reflexivity.
Qed.

Lemma processed_screen_shape (rgb : list (list (list Z))) (loc : Z) :
  length rgb = 400%nat ->
  Forall (fun row => length row = 600%nat) rgb ->
  has_shape (Baseline.processed_screen rgb loc) 3 160 320.
Proof.
  intros Hh Hw.
  destruct (transpose_shape rgb 400 600 Hh Hw) as [Hall Hc].
  unfold has_shape, Baseline.processed_screen. split.
  - rewrite !length_map. exact Hc.
  - apply Forall_map, Forall_map, Forall_map.
    eapply Forall_impl; [|exact Hall].
    intros ch [Hrows Hcols]. split.
    + rewrite !length_map. cbn [take_slice].
      rewrite length_firstn, length_skipn, Hrows. reflexivity.
    + apply Forall_map, Forall_map, Forall_forall. intros row Hin.
      rewrite length_map. apply viewport_length.
      apply in_take_slice in Hin.
      rewrite Forall_forall in Hcols. apply Hcols, Hin.
Qed.

End ScreenFacts.

(** C10.  The baseline [state] does not look at [frame_active] and
    [params_active]: with any flags it renders the wrapped simulator and
    returns the frame that the resize pipeline makes of the rendered
    screen (transposed, cut to the rows 160:320 and to the viewport of the
    cart location, divided by 255), with the raw image and the telemetry
    absent, and it leaves the done flag as it is.  (The simulator's
    [x_threshold] is not zero, as the scale of the cart location divides
    by it.) *)
Theorem baseline_state_ignores_flags
    {G : Type} {GS : GymSimulator G} (b : Baseline.t G)
    (frame_active params_active : bool) :
  ~ gym_x_threshold == 0 ->
  let rgb := fst (gym_render (Baseline.env b)) in
  let b' := Baseline.set_env (snd (gym_render (Baseline.env b))) b in
  let cart_location :=
    Py.int (gym_state0 (Baseline.env b')
            * (inject_Z Baseline.screen_width / (gym_x_threshold * 2))
            + inject_Z Baseline.screen_width / 2) in
  Baseline.state frame_active params_active b = Baseline.state false false b
  /\ Baseline.state frame_active params_active b
     = (Py.Ok (Some (Baseline.resizer b
                       (Baseline.processed_screen rgb cart_location)),
               None, None), b')
  /\ Baseline.env (snd (Baseline.state frame_active params_active b))
     = snd (gym_render (Baseline.env b))
  /\ Baseline.done (snd (Baseline.state frame_active params_active b))
     = Baseline.done b.
Proof.
  intros Hx rgb b' cart_location. split; [reflexivity|].
  assert (Hz : Qeq_bool (gym_x_threshold * 2) 0 = false).
  { destruct (Qeq_bool (gym_x_threshold * 2) 0) eqn:E; [|reflexivity].
    apply Qeq_bool_iff in E. exfalso. apply Hx. lra. }
  subst rgb b' cart_location.
  unfold Baseline.state, Baseline.get_cart_location.
  destruct (gym_render (Baseline.env b)) as [frame g]. simpl.
  rewrite Hz. repeat split.
Qed.

Lemma baseline_state_ignores_flags_witness :
  Baseline.state false true Demo.cartpole
  = Baseline.state false false Demo.cartpole
  /\ Baseline.state false true Demo.cartpole
     = (Py.Ok (Some (Baseline.resizer Demo.cartpole
                       (Baseline.processed_screen
                          (fst (gym_render (Baseline.env Demo.cartpole)))
                          300)),
               None, None), Demo.cartpole)
  /\ has_shape
       (Baseline.processed_screen
          (fst (gym_render (Baseline.env Demo.cartpole))) 300) 3 160 320
  /\ Baseline.done (snd (Baseline.state false true Demo.cartpole))
     = Baseline.done Demo.cartpole.
Proof.
  destruct (baseline_state_ignores_flags Demo.cartpole false true)
    as (H1 & H2 & _ & H4).
  - simpl. discriminate.
  - split; [exact H1|]. split; [exact H2|]. split; [|exact H4].
    apply processed_screen_shape.
    + apply repeat_length.
    + apply Forall_forall. intros row Hin.
      apply repeat_spec in Hin. subst row.
      rewrite length_map. unfold zrange. rewrite length_map, length_seq.
      reflexivity.
Defined.

(* ===================================================================== *)
(** ** Further properties of the agent physics model *)
(* ===================================================================== *)

Section SpriteMotion.

Import Sprite.

Lemma movement_above a s :
  MAX_VELOCITY < velocity s + a -> velocity (movement a s) = MAX_VELOCITY.
Proof.
  intros H. unfold movement.
  destruct (Py.ltb MAX_VELOCITY (velocity s + a)) eqn:Hmax; [reflexivity|].
  apply ltb_false in Hmax. lra.
Qed.

Lemma movement_below a s :
  velocity s + a < MIN_VELOCITY -> velocity (movement a s) = MIN_VELOCITY.
Proof.
  intros H. unfold movement.
  destruct (Py.ltb MAX_VELOCITY (velocity s + a)) eqn:Hmax.
  - apply ltb_true in Hmax. pose proof bounds_ordered. lra.
  - destruct (Py.ltb (velocity s + a) MIN_VELOCITY) eqn:Hmin; [reflexivity|].
    apply ltb_false in Hmin. lra.
Qed.

(** The new velocity depends on the old velocity and the delta as
    numbers. *)
Lemma movement_velocity_proper a b s s' :
  velocity s == velocity s' -> a == b ->
  velocity (movement a s) == velocity (movement b s').
Proof.
  intros Ev Ea.
  assert (E : velocity s + a == velocity s' + b) by (rewrite Ev, Ea; reflexivity).
  unfold movement, Py.ltb.
  rewrite (Qcompare_comp _ _ (Qeq_refl MAX_VELOCITY) _ _ E).
  rewrite (Qcompare_comp _ _ E _ _ (Qeq_refl MIN_VELOCITY)).
  destruct (MAX_VELOCITY ?= velocity s' + b); simpl; try reflexivity;
    destruct (velocity s' + b ?= MIN_VELOCITY); simpl;
    try reflexivity; exact E.
Qed.

Lemma movement_zero s :
  in_bounds (velocity s) -> velocity (movement 0 s) == velocity s.
Proof.
  intros [Hlo Hhi]. rewrite movement_inside.
  - ring.
  - split; rewrite Qplus_0_r; assumption.
Qed.

Lemma act_actions_velocity id s :
  velocity (act_actions (Some id) s)
  = velocity (movement (fst (decode id)) s).
Proof.
  unfold act_actions. destruct (decode id) as [m st]. reflexivity.
Qed.

Lemma act_actions_rotation id s :
  rotation (act_actions (Some id) s) = rotation s + snd (decode id).
Proof.
  unfold act_actions. destruct (decode id) as [m st]. simpl.
  rewrite movement_rotation. reflexivity.
Qed.

Lemma act_actions_frame id s :
  position (act_actions (Some id) s) = position s
  /\ offset (act_actions (Some id) s) = offset s
  /\ car_size_offset (act_actions (Some id) s) = car_size_offset s.
Proof.
  unfold act_actions. destruct (decode id) as [m st]. simpl.
  apply movement_frame.
Qed.

Lemma inject_Z_succ (n : nat) :
  inject_Z (Z.of_nat (S n)) == inject_Z (Z.of_nat n) + 1.
Proof.
  rewrite Nat2Z.inj_succ. unfold Z.succ. rewrite inject_Z_plus. reflexivity.
Qed.

Lemma inject_Z_le_nat (n m : nat) :
  (n <= m)%nat -> inject_Z (Z.of_nat n) <= inject_Z (Z.of_nat m).
Proof. intros H. rewrite <- Zle_Qle. lia. Qed.

End SpriteMotion.

(** On the rationals of the model, [n] accelerations from a new sprite
    give [n * acceleration] up to 138 steps and [MAX_VELOCITY] after. *)
Lemma rational_acceleration_steps
    (n : nat) (position : Vec2) (rotation : Q) (offset : Vec2) :
  Sprite.velocity (repeat_action 0 n (Sprite.init position rotation offset))
  == if (n <=? 138)%nat
     then inject_Z (Z.of_nat n) * Sprite.acceleration
     else Sprite.MAX_VELOCITY.
Proof.
  induction n as [|n IH].
  - simpl. reflexivity.
  - unfold repeat_action in *. rewrite Nat.iter_succ.
    set (s := Nat.iter n (Sprite.act_actions (Some 0%Z))
                (Sprite.init position rotation offset)) in *.
    rewrite act_actions_velocity.
    change (fst (Sprite.decode 0)) with (0 + Sprite.acceleration).
    pose proof (inject_Z_succ n) as Hs.
    destruct (Nat.leb_spec n 138) as [Hn|Hn];
      destruct (Nat.leb_spec (S n) 138) as [Hn'|Hn']; try lia.
    + pose proof (inject_Z_le_nat (S n) 138 Hn') as Hle.
      assert (H0 : 0 <= inject_Z (Z.of_nat n)).
      { change 0 with (inject_Z (Z.of_nat 0)). apply inject_Z_le_nat. lia. }
      change (inject_Z (Z.of_nat 138)) with 138 in Hle.
      unfold Sprite.acceleration in *.
      rewrite movement_inside.
      * rewrite IH, Hs. ring.
      * unfold Sprite.in_bounds, Sprite.MIN_VELOCITY, Sprite.MAX_VELOCITY.
        rewrite IH. rewrite Hs in Hle. split; lra.
    + assert (n = 138)%nat by lia. subst n.
      rewrite movement_above; [reflexivity|].
      rewrite IH. reflexivity.
    + rewrite movement_above; [reflexivity|].
      rewrite IH. reflexivity.
Qed.

Lemma repeat_action_succ (action : Z) (n : nat) (s : Sprite.t) :
  repeat_action action (S n) s
  = Sprite.act_actions (Some action) (repeat_action action n s).
Proof. reflexivity. Qed.

Lemma repeat_action_in_bounds
    (n : nat) (position : Vec2) (rotation : Q) (offset : Vec2) :
  Sprite.in_bounds
    (Sprite.velocity
       (repeat_action 0 n (Sprite.init position rotation offset))).
Proof.
  destruct n as [|n].
  - apply zero_in_bounds.
  - rewrite repeat_action_succ, act_actions_velocity.
    apply movement_in_bounds.
Qed.

(** X1.  Under repeated acceleration (action id 0) from a new sprite the
    velocity never decreases from one step to the next, and from the
    139th step on it is exactly [MAX_VELOCITY]: the clamp is reached and
    held. *)
Theorem repeated_acceleration_saturates
    (n : nat) (position : Vec2) (rotation : Q) (offset : Vec2) :
  let s0 := Sprite.init position rotation offset in
  Sprite.velocity (repeat_action 0 n s0)
  <= Sprite.velocity (repeat_action 0 (S n) s0)
  /\ Sprite.velocity (repeat_action 0 (139 + n) s0) = Sprite.MAX_VELOCITY.
Proof.
  intros s0. subst s0.
  assert (Hacc : Sprite.acceleration == 0.025) by reflexivity.
  assert (Hmax : Sprite.MAX_VELOCITY == 3.45) by reflexivity.
  split.
  - pose proof (repeat_action_in_bounds n position rotation offset)
      as [Hlo Hhi].
    rewrite repeat_action_succ, act_actions_velocity.
    change (fst (Sprite.decode 0)) with (0 + Sprite.acceleration).
    set (s := repeat_action 0 n (Sprite.init position rotation offset)) in *.
    clearbody s.
    destruct (Qlt_le_dec Sprite.MAX_VELOCITY
                (Sprite.velocity s + (0 + Sprite.acceleration))) as [Ha|Ha].
    + rewrite (movement_above _ _ Ha). exact Hhi.
    + rewrite movement_inside; [lra|]. split; [lra | exact Ha].
  - replace (139 + n)%nat with (S (138 + n)) by lia.
    rewrite repeat_action_succ, act_actions_velocity.
    change (fst (Sprite.decode 0)) with (0 + Sprite.acceleration).
    apply movement_above.
    pose proof (rational_acceleration_steps (138 + n) position rotation offset)
      as Hv.
    set (s := repeat_action 0 (138 + n)
                (Sprite.init position rotation offset)) in *.
    clearbody s.
    destruct (Nat.leb_spec (138 + n) 138) as [Hn|Hn].
    + assert (H138 : (138 <= 138 + n)%nat) by lia.
      pose proof (inject_Z_le_nat 138 (138 + n) H138) as Hle.
      change (inject_Z (Z.of_nat 138)) with 138 in Hle.
      set (x := inject_Z (Z.of_nat (138 + n))) in *. clearbody x.
      unfold Sprite.acceleration, Sprite.MAX_VELOCITY in *. lra.
    + unfold Sprite.acceleration, Sprite.MAX_VELOCITY in *. lra.
Qed.

(** X2.  From a velocity within the bounds, [movement] never overshoots
    and never turns back: the new velocity lies between the old velocity
    and the old velocity plus the delta. *)
Theorem movement_stays_between (delta : Q) (s : Sprite.t) :
  Sprite.in_bounds (Sprite.velocity s) ->
  (0 <= delta ->
   Sprite.velocity s <= Sprite.velocity (Sprite.movement delta s)
   /\ Sprite.velocity (Sprite.movement delta s) <= Sprite.velocity s + delta)
  /\ (delta <= 0 ->
      Sprite.velocity s + delta <= Sprite.velocity (Sprite.movement delta s)
      /\ Sprite.velocity (Sprite.movement delta s) <= Sprite.velocity s).
Proof.
  intros [Hlo Hhi].
  destruct (Qlt_le_dec Sprite.MAX_VELOCITY (Sprite.velocity s + delta)) as [Ha|Ha].
  - rewrite (movement_above _ _ Ha). split; intros Hd; split; lra.
  - destruct (Qlt_le_dec (Sprite.velocity s + delta) Sprite.MIN_VELOCITY) as [Hb|Hb].
    + rewrite (movement_below _ _ Hb). split; intros Hd; split; lra.
    + rewrite movement_inside by (split; assumption).
      split; intros Hd; split; lra.
Qed.

Lemma movement_stays_between_witness :
  let s := Sprite.init (0, 0) 0 (0, 0) in
  Sprite.velocity s <= Sprite.velocity (Sprite.movement 5 s)
  /\ Sprite.velocity (Sprite.movement 5 s) <= Sprite.velocity s + 5.
Proof.
  destruct (movement_stays_between 5 (Sprite.init (0, 0) 0 (0, 0))) as [H _].
  - simpl. split; discriminate.
  - apply H. discriminate.
Defined.

Section SpriteComposition.

Import Sprite.

Lemma compose_motion_then_steer m st c s :
  fst (decode st) == 0 -> snd (decode m) == 0 ->
  fst (decode c) == fst (decode m) -> snd (decode c) == snd (decode st) ->
  equiv (act_actions (Some st) (act_actions (Some m) s))
        (act_actions (Some c) s).
Proof.
  intros H1 H2 H3 H4.
  destruct (act_actions_frame m s) as (Hp & Ho & Hc).
  destruct (act_actions_frame st (act_actions (Some m) s)) as (Hp1 & Ho1 & Hc1).
  destruct (act_actions_frame c s) as (Hp2 & Ho2 & Hc2).
  unfold equiv.
  rewrite Hp1, Ho1, Hc1, Hp, Ho, Hc, Hp2, Ho2, Hc2.
  rewrite !act_actions_rotation, !act_actions_velocity.
  repeat split; try reflexivity.
  - rewrite H2, H4. ring.
  - rewrite (movement_velocity_proper _ 0 _ _ (Qeq_refl _) H1).
    rewrite movement_zero.
    + rewrite act_actions_velocity.
      apply movement_velocity_proper; [reflexivity | symmetry; exact H3].
    + rewrite act_actions_velocity. apply movement_in_bounds.
Qed.

Lemma compose_steer_then_motion m st c s :
  in_bounds (velocity s) ->
  fst (decode st) == 0 -> snd (decode m) == 0 ->
  fst (decode c) == fst (decode m) -> snd (decode c) == snd (decode st) ->
  equiv (act_actions (Some m) (act_actions (Some st) s))
        (act_actions (Some c) s).
Proof.
  intros Hb H1 H2 H3 H4.
  destruct (act_actions_frame st s) as (Hp & Ho & Hc).
  destruct (act_actions_frame m (act_actions (Some st) s)) as (Hp1 & Ho1 & Hc1).
  destruct (act_actions_frame c s) as (Hp2 & Ho2 & Hc2).
  unfold equiv.
  rewrite Hp1, Ho1, Hc1, Hp, Ho, Hc, Hp2, Ho2, Hc2.
  rewrite !act_actions_rotation, !act_actions_velocity.
  repeat split; try reflexivity.
  - rewrite H2, H4. ring.
  - apply movement_velocity_proper; [|symmetry; exact H3].
    rewrite act_actions_velocity.
    rewrite (movement_velocity_proper _ 0 _ _ (Qeq_refl _) H1).
    apply movement_zero. exact Hb.
Qed.

End SpriteComposition.

(** X4.  A combined action id acts as its two single actions one after the
    other, in either order: 4 as accelerate (0) and steer (2), 5 as 0 and
    3, 6 as decelerate (1) and 2, 7 as 1 and 3, on every sprite whose
    velocity is within the bounds. *)
Theorem combined_actions_compose (s : Sprite.t) :
  Sprite.in_bounds (Sprite.velocity s) ->
  Forall
    (fun '(m, st, c) =>
       Sprite.equiv
         (Sprite.act_actions (Some st) (Sprite.act_actions (Some m) s))
         (Sprite.act_actions (Some c) s)
       /\ Sprite.equiv
            (Sprite.act_actions (Some m) (Sprite.act_actions (Some st) s))
            (Sprite.act_actions (Some c) s))
    [(0, 2, 4); (0, 3, 5); (1, 2, 6); (1, 3, 7)]%Z.
Proof.
  intros Hb.
  repeat constructor;
    first [ apply compose_motion_then_steer; reflexivity
          | apply compose_steer_then_motion; [exact Hb | reflexivity ..] ].
Qed.

Lemma combined_actions_compose_witness :
  let s := Sprite.movement 1 (Sprite.init (10, 20) 0 (0, 0)) in
  Forall
    (fun '(m, st, c) =>
       Sprite.equiv
         (Sprite.act_actions (Some st) (Sprite.act_actions (Some m) s))
         (Sprite.act_actions (Some c) s)
       /\ Sprite.equiv
            (Sprite.act_actions (Some m) (Sprite.act_actions (Some st) s))
            (Sprite.act_actions (Some c) s))
    [(0, 2, 4); (0, 3, 5); (1, 2, 6); (1, 3, 7)]%Z.
Proof.
  apply (combined_actions_compose
           (Sprite.movement 1 (Sprite.init (10, 20) 0 (0, 0)))).
  vm_compute. split; discriminate.
Defined.

(** X6.  A sprite that was reset is at rest: [reset] sets velocity and
    rotation to 0 and keeps the position, and integration steps after it
    do not move the sprite, whatever the scaling. *)
Theorem reset_puts_sprite_at_rest (cos sin : Q -> Q) (k : Q) (s : Sprite.t) :
  Sprite.velocity (Sprite.reset s) = 0
  /\ Sprite.rotation (Sprite.reset s) = 0
  /\ Sprite.position (Sprite.reset s) = Sprite.position s
  /\ Sprite.equiv (Sprite.act cos sin k (Sprite.reset s)) (Sprite.reset s).
Proof.
  repeat split; try reflexivity;
    unfold Sprite.act, vadd, vscale; simpl; ring.
Qed.

Section SpriteAnchor.

Import Sprite.

Lemma apply_car_size_offset cos sin o s :
  car_size_offset (apply cos sin o s)
  = if is_initialize o then car_size_offset (initialize s)
    else car_size_offset s.
Proof.
  destruct o as [ | a | k | [a|] | ]; simpl; try reflexivity.
  - apply movement_frame.
  - apply act_actions_frame.
Qed.

Lemma run_car_size_offset cos sin ops : forall s,
  car_size_offset (run cos sin ops s)
  = if existsb is_initialize ops then car_size_offset (initialize s)
    else car_size_offset s.
Proof.
  unfold run. induction ops as [|o ops IH]; intros s; simpl.
  - reflexivity.
  - rewrite IH, apply_car_size_offset.
    destruct (is_initialize o); simpl.
    + destruct (existsb is_initialize ops); reflexivity.
    + reflexivity.
Qed.

End SpriteAnchor.

(** X7.  [get_position] needs [initialize]: on a sprite built by
    [__init__] and taken through any operations it raises
    [AttributeError] as long as [initialize] was not among them, and once
    it was, it returns [position + offset] minus half the sprite size,
    (12.5, 12.5). *)
Theorem get_position_needs_initialize
    (cos sin : Q -> Q) (ops : list Sprite.Op)
    (position : Vec2) (rotation : Q) (offset : Vec2) :
  let s := Sprite.run cos sin ops (Sprite.init position rotation offset) in
  let half := vscale (inject_Z 25, inject_Z 25) (1 / 2) in
  Sprite.get_position s
  = (if existsb Sprite.is_initialize ops
     then Py.Ok (vsub (vadd (Sprite.position s) (Sprite.offset s)) half)
     else Py.Raise Py.AttributeError)
  /\ fst half == 12.5 /\ snd half == 12.5.
Proof.
  intros s half. split; [|split; reflexivity].
  unfold Sprite.get_position. subst s.
  rewrite run_car_size_offset.
  destruct (existsb Sprite.is_initialize ops); reflexivity.
Qed.

(** X8.  [get_params] raises [AttributeError] on a sprite that was not
    initialised.  On a sprite that was initialised and then taken through
    any operations it returns a dict with the four static entries
    unchanged and the entries [pos], [acc] and [rot] of the sprite, and
    the reported [acc] lies between the reported [acc_min] and
    [acc_max]. *)
Theorem get_params_reports_bounded_velocity
    (cos sin : Q -> Q) (ops : list Sprite.Op)
    (position : Vec2) (rotation : Q) (offset : Vec2) :
  let s0 := Sprite.init position rotation offset in
  let s := Sprite.run cos sin (Sprite.OInitialize :: ops) s0 in
  Sprite.get_params s0 = Py.Raise Py.AttributeError
  /\ exists d pos,
       Sprite.get_params s = Py.Ok d
       /\ Sprite.get_position s = Py.Ok pos
       /\ map fst d
          = ["acc_max"; "acc_min"; "acc_amount"; "steering_amount";
             "pos"; "acc"; "rot"]%string
       /\ Sprite.dict_get "pos" d = Some (Sprite.PArray pos)
       /\ Sprite.dict_get "acc" d = Some (Sprite.PFloat (Sprite.velocity s))
       /\ Sprite.dict_get "rot" d = Some (Sprite.PFloat (Sprite.rotation s))
       /\ Sprite.dict_get "acc_min" d
          = Some (Sprite.PFloat Sprite.MIN_VELOCITY)
       /\ Sprite.dict_get "acc_max" d
          = Some (Sprite.PFloat Sprite.MAX_VELOCITY)
       /\ Sprite.dict_get "acc_amount" d
          = Some (Sprite.PFloat Sprite.acceleration)
       /\ Sprite.dict_get "steering_amount" d
          = Some (Sprite.PFloat Sprite.steering)
       /\ Sprite.MIN_VELOCITY <= Sprite.velocity s
       /\ Sprite.velocity s <= Sprite.MAX_VELOCITY.
Proof.
  intros s0 s. split; [reflexivity|].
  assert (Hpos : Sprite.get_position s
                 = Py.Ok (vsub (vadd (Sprite.position s) (Sprite.offset s))
                               (vscale (inject_Z 25, inject_Z 25) (1 / 2)))).
  { unfold Sprite.get_position. subst s.
    rewrite run_car_size_offset. reflexivity. }
  assert (Hb : Sprite.in_bounds (Sprite.velocity s)).
  { apply run_in_bounds. apply zero_in_bounds. }
  eexists. eexists.
  unfold Sprite.get_params. rewrite Hpos. simpl Py.bind.
  split; [reflexivity|]. split; [reflexivity|].
  repeat split; try reflexivity; apply Hb.
Qed.

(* ===================================================================== *)
(** ** Further properties of the observation pipeline *)
(* ===================================================================== *)

(** Truncation toward zero against an integer bound. *)
Lemma int_le_iff (q : Q) (n : Z) :
  (0 <= n)%Z -> ((Py.int q <= n)%Z <-> q < inject_Z n + 1).
Proof.
  intros Hn. destruct q as [a d]. unfold Py.int, Qlt, Qplus, inject_Z. simpl.
  rewrite ?Z.mul_1_r, ?Pos.mul_1_r.
  destruct (Z.le_gt_cases 0 a) as [Ha|Ha].
  - rewrite Z.quot_div_nonneg by lia. split; intros H.
    + pose proof (Z.mul_succ_div_gt a (Z.pos d) ltac:(lia)). nia.
    + assert (a / Z.pos d < n + 1)%Z; [|lia].
      apply Z.div_lt_upper_bound; lia.
  - assert (a ÷ Z.pos d <= 0)%Z.
    { rewrite <- (Z.quot_0_l (Z.pos d)) by lia. apply Z.quot_le_mono; lia. }
    split; intros _; [nia | lia].
Qed.

(** On a non-negative number truncation is the floor. *)
Lemma int_floor (q : Q) :
  0 <= q ->
  inject_Z (Py.int q) <= q /\ q < inject_Z (Py.int q) + 1
  /\ (0 <= Py.int q)%Z.
Proof.
  intros Hq. destruct q as [a d].
  unfold Py.int, Qle, Qlt, Qplus, inject_Z in *.
  simpl in *. rewrite ?Z.mul_1_r in *. rewrite ?Pos.mul_1_r.
  rewrite Z.quot_div_nonneg by lia.
  pose proof (Z.mul_succ_div_gt a (Z.pos d) ltac:(lia)).
  pose proof (Z.mul_div_le a (Z.pos d) ltac:(lia)).
  pose proof (Z.div_pos a (Z.pos d) ltac:(lia) ltac:(lia)).
  repeat split; nia.
Qed.

Lemma inject_Z_sub (a b : Z) : inject_Z (a - b) == inject_Z a - inject_Z b.
Proof.
  unfold Z.sub. rewrite inject_Z_plus, inject_Z_opp. reflexivity.
Qed.

Lemma int_between (q : Q) (a b : Z) :
  inject_Z a <= q -> q <= inject_Z b -> (a <= Py.int q <= b)%Z.
Proof.
  destruct q as [n d]. unfold Py.int, Qle, inject_Z. simpl.
  rewrite ?Z.mul_1_r. intros Ha Hb. split.
  - rewrite <- (Z.quot_mul a (Z.pos d)) by lia.
    apply Z.quot_le_mono; lia.
  - rewrite <- (Z.quot_mul b (Z.pos d)) by lia.
    apply Z.quot_le_mono; lia.
Qed.

(** Within the 64-bit range the cast is the truncation. *)
Lemma astype_int_exact (q : Q) :
  - 4611686018427387904 <= q -> q <= 4611686018427387904 ->
  Py.astype_int q = Py.int q.
Proof.
  intros Hlo Hhi. unfold Py.astype_int.
  destruct (int_between q (- 4611686018427387904) 4611686018427387904
              Hlo Hhi) as [H1 H2].
  cbv zeta.
  destruct (Z.leb_spec (- 9223372036854775808) (Py.int q));
    destruct (Z.ltb_spec (Py.int q) 9223372036854775808);
    simpl; try reflexivity; lia.
Qed.

(** X9.  For a frame size that fits the canvas and a center within the
    range of screen coordinates (at most 2^31 in size on each axis), the
    crop box of [create_snapshot] lies within the 500x500 canvas exactly
    when the center is less than [501 - size / 2] on both axes; for the
    frame size (84, 84) that is a center below 459. *)
Theorem crop_box_within_canvas_iff (size : Z * Z) (center : Vec2) :
  (0 <= fst size <= fst SIZE)%Z ->
  (0 <= snd size <= snd SIZE)%Z ->
  - 2147483648 <= fst center -> fst center <= 2147483648 ->
  - 2147483648 <= snd center -> snd center <= 2147483648 ->
  box_within_canvas (crop_box size center)
  <-> fst center < 501 - inject_Z (fst size) / 2
      /\ snd center < 501 - inject_Z (snd size) / 2.
Proof.
  destruct size as [w h]. destruct center as [cx cy].
  unfold SIZE, box_within_canvas, crop_box, vsub. simpl.
  intros Hw Hh Hx1 Hx2 Hy1 Hy2.
  pose proof (int_le_iff (cx - inject_Z w / 2) (500 - w) ltac:(lia)) as Hx.
  pose proof (int_le_iff (cy - inject_Z h / 2) (500 - h) ltac:(lia)) as Hy.
  rewrite inject_Z_sub in Hx, Hy.
  change (inject_Z 500) with 500 in Hx, Hy.
  assert (Ew : inject_Z w == 2 * (inject_Z w / 2)) by field.
  assert (Eh : inject_Z h == 2 * (inject_Z h / 2)) by field.
  assert (Bw : 0 <= inject_Z w /\ inject_Z w <= 500).
  { destruct Hw as [H0 H1]. rewrite Zle_Qle in H0, H1. split; assumption. }
  assert (Bh : 0 <= inject_Z h /\ inject_Z h <= 500).
  { destruct Hh as [H0 H1]. rewrite Zle_Qle in H0, H1. split; assumption. }
  set (hw := inject_Z w / 2) in *. set (hh := inject_Z h / 2) in *.
  clearbody hw hh.
  rewrite !astype_int_exact by lra.
  split.
  - intros (_ & _ & Hr & Hb). split.
    + assert (Hi : (Py.int (cx - hw) <= 500 - w)%Z) by lia.
      apply Hx in Hi. lra.
    + assert (Hi : (Py.int (cy - hh) <= 500 - h)%Z) by lia.
      apply Hy in Hi. lra.
  - intros [Hcx Hcy].
    assert (Hi : (Py.int (cx - hw) <= 500 - w)%Z)
      by (apply Hx; lra).
    assert (Hj : (Py.int (cy - hh) <= 500 - h)%Z)
      by (apply Hy; lra).
    repeat split; lia.
Qed.

Lemma crop_box_within_canvas_iff_witness :
  box_within_canvas (crop_box (84, 84)%Z (250, 250))
  <-> 250 < 501 - inject_Z 84 / 2 /\ 250 < 501 - inject_Z 84 / 2.
Proof.
  apply (crop_box_within_canvas_iff (84, 84)%Z (250, 250)).
  - simpl. lia.
  - simpl. lia.
  - simpl. discriminate.
  - simpl. discriminate.
  - simpl. discriminate.
  - simpl. discriminate.
Defined.

(** X10.  When the center is at least half the frame size away from the
    left and top edges (and within the range of screen coordinates, at
    most 2^31), the clamp is idle and the crop box is centered on the
    center to within one pixel: its left and top edges are the floor of
    [center - size / 2]. *)
Theorem crop_box_centered (size : Z * Z) (center : Vec2) :
  (0 <= fst size)%Z -> (0 <= snd size)%Z ->
  inject_Z (fst size) / 2 <= fst center -> fst center <= 2147483648 ->
  inject_Z (snd size) / 2 <= snd center -> snd center <= 2147483648 ->
  let '(l, u, r, b) := crop_box size center in
  (inject_Z l <= fst center - inject_Z (fst size) / 2
   /\ fst center - inject_Z (fst size) / 2 < inject_Z l + 1)
  /\ (inject_Z u <= snd center - inject_Z (snd size) / 2
      /\ snd center - inject_Z (snd size) / 2 < inject_Z u + 1)
  /\ (r - l = fst size /\ b - u = snd size)%Z.
Proof.
  destruct size as [w h]. destruct center as [cx cy].
  unfold crop_box, vsub. simpl. intros Hw Hh Hx Hx2 Hy Hy2.
  assert (Ew : inject_Z w == 2 * (inject_Z w / 2)) by field.
  assert (Eh : inject_Z h == 2 * (inject_Z h / 2)) by field.
  rewrite Zle_Qle in Hw, Hh.
  change (inject_Z 0) with 0 in Hw, Hh.
  set (hw := inject_Z w / 2) in *. set (hh := inject_Z h / 2) in *.
  clearbody hw hh.
  rewrite !astype_int_exact by lra.
  destruct (int_floor (cx - hw) ltac:(lra)) as (Hx1 & Hx3 & Hx4).
  destruct (int_floor (cy - hh) ltac:(lra)) as (Hy1 & Hy3 & Hy4).
  rewrite !Z.max_l by lia.
  repeat split; try assumption; lia.
Qed.

Lemma crop_box_centered_witness :
  let '(l, u, r, b) := crop_box (84, 84)%Z (250, 300) in
  (inject_Z l <= 250 - inject_Z 84 / 2
   /\ 250 - inject_Z 84 / 2 < inject_Z l + 1)
  /\ (inject_Z u <= 300 - inject_Z 84 / 2
      /\ 300 - inject_Z 84 / 2 < inject_Z u + 1)
  /\ (r - l = 84 /\ b - u = 84)%Z.
Proof.
  apply (crop_box_centered (84, 84)%Z (250, 300)).
  - simpl. lia.
  - simpl. lia.
  - simpl. discriminate.
  - simpl. discriminate.
  - simpl. discriminate.
  - simpl. discriminate.
Defined.

(** X11.  The image of [create_snapshot] shows the surface: without size
    or center it is the whole 500x500 canvas, pixel for pixel; with them
    it has exactly the requested size and its pixel [(x, y)] is the
    surface pixel at the crop box's corner plus [(x, y)] where that lies
    on the canvas, and black where the box reaches past the canvas. *)
Theorem snapshot_shows_surface
    (surface : Surface) (size : Z * Z) (center : Vec2) (x y : Z) :
  match create_snapshot surface None None false false false false false with
  | SnapImage im =>
      width im = 500%Z /\ height im = 500%Z /\ bands im = 3%nat
      /\ px im x y = surface x y
  | _ => False
  end
  /\ match create_snapshot surface (Some size) (Some center)
             false false false false false with
     | SnapImage im =>
         let '(l, u, r, b) := crop_box size center in
         width im = fst size /\ height im = snd size /\ bands im = 3%nat
         /\ px im x y
            = (if on_canvas (x + l) (y + u) then surface (x + l)%Z (y + u)%Z
               else [0; 0; 0]%Z)
     | _ => False
     end.
Proof.
  split.
  - unfold create_snapshot.
    repeat split; try reflexivity. apply snapshot_image_is_surface.
  - unfold create_snapshot.
    pose proof (crop_box_clamped_low size center) as Hbox.
    destruct (crop_box size center) as [[[l u] r] b].
    destruct Hbox as (_ & _ & Hr & Hb).
    unfold crop. cbn [width height bands px].
    repeat split; try lia; try reflexivity.
    unfold on_canvas.
    change (width (rotate270 (fromarray (flip_axis0 (rollaxis_0_1 (pixels3d surface))))))
      with (fst SIZE).
    change (height (rotate270 (fromarray (flip_axis0 (rollaxis_0_1 (pixels3d surface))))))
      with (snd SIZE).
    destruct ((0 <=? x + l) && (x + l <? fst SIZE)
              && (0 <=? y + u) && (y + u <? snd SIZE))%Z.
    + apply snapshot_image_is_surface.
    + reflexivity.
Qed.

Section TensorFacts.

Lemma zrange_length (n : Z) : length (zrange n) = Z.to_nat n.
Proof. unfold zrange. rewrite length_map, length_seq. reflexivity. Qed.

Lemma tensor_unsqueezed_shape (im : Image) :
  has_shape (tensor_unsqueezed im) 1
            (Z.to_nat (height im)) (Z.to_nat (width im)).
Proof.
  unfold has_shape, tensor_unsqueezed. split; [reflexivity|].
  constructor; [|constructor]. split.
  - rewrite length_map. apply zrange_length.
  - apply Forall_map. apply Forall_forall. intros y _.
    rewrite length_map. apply zrange_length.
Qed.

Lemma tensor_div_shape (t : Tensor) (k : Q) (c h w : nat) :
  has_shape t c h w -> has_shape (tensor_div t k) c h w.
Proof.
  unfold has_shape, tensor_div. intros [Hc Hall]. split.
  - rewrite length_map. exact Hc.
  - apply Forall_map. eapply Forall_impl; [|exact Hall].
    intros ch [Hh Hrows]. split.
    + rewrite length_map. exact Hh.
    + apply Forall_map. eapply Forall_impl; [|exact Hrows].
      intros row Hw. rewrite length_map. exact Hw.
Qed.

Lemma luma_byte (p : list Z) :
  valid_pixel p = true -> (0 <= luma p <= 255)%Z.
Proof.
  destruct p as [|r [|g [|b [|]]]]; simpl; try discriminate.
  intros H. repeat (apply andb_prop in H; destruct H as [H ?]).
  rewrite Z.shiftr_div_pow2 by lia.
  change (2 ^ 16)%Z with 65536%Z.
  assert (0 <= r * 19595 + g * 38470 + b * 7471 + 32768
          < 256 * 65536)%Z by lia.
  split.
  - apply Z.div_pos; lia.
  - assert (Hlt : ((r * 19595 + g * 38470 + b * 7471 + 32768) / 65536
                   < 256)%Z)
      by (apply Z.div_lt_upper_bound; lia).
    lia.
Qed.

Lemma unit_interval (l : Z) :
  (0 <= l <= 255)%Z -> 0 <= inject_Z l / 255 /\ inject_Z l / 255 <= 1.
Proof.
  intros [H0 H1]. rewrite Zle_Qle in H0, H1.
  change (inject_Z 0) with 0 in H0. change (inject_Z 255) with 255 in H1.
  assert (E : inject_Z l / 255 == inject_Z l * (1 # 255)) by field.
  rewrite E. split; lra.
Qed.

End TensorFacts.

(** X12.  The observation tensor that [state] asks of [create_snapshot]
    (raw, tensor, grayscale, normalize), for a surface of byte pixels, has
    one channel of [size[1]] rows of [size[0]] values, every value within
    [0, 1] -- also where the crop reaches past the canvas -- and comes
    with a one-band image of the requested size. *)
Theorem snapshot_tensor_shape_and_range
    (surface : Surface) (size : Z * Z) (center : Vec2) :
  (forall x y, valid_pixel (surface x y) = true) ->
  match create_snapshot surface (Some size) (Some center)
          false true true true true with
  | SnapTensor frame img =>
      has_shape frame 1 (Z.to_nat (snd size)) (Z.to_nat (fst size))
      /\ tensor_within frame 0 1
      /\ bands img = 1%nat /\ width img = fst size /\ height img = snd size
  | _ => False
  end.
Proof.
  intros Hvalid. unfold create_snapshot.
  pose proof (crop_box_clamped_low size center) as Hbox.
  destruct (crop_box size center) as [[[l u] r] b] eqn:Ebox.
  destruct Hbox as (_ & _ & Hr & Hb).
  set (canvas := rotate270 (fromarray (flip_axis0 (rollaxis_0_1 (pixels3d surface))))).
  set (img := convert_L (crop (l, u, r, b) canvas)).
  assert (Hw : width img = fst size) by (simpl; lia).
  assert (Hh : height img = snd size) by (simpl; lia).
  cbn [negb orb]. change (1 <? bands img)%nat with false. cbn iota.
  split; [|split; [|split; [reflexivity|split; assumption]]].
  - rewrite <- Hw, <- Hh. apply tensor_div_shape, tensor_unsqueezed_shape.
  - unfold tensor_within, tensor_div, tensor_unsqueezed.
    constructor; [|constructor].
    apply Forall_map, Forall_map, Forall_forall. intros y _.
    apply Forall_map, Forall_map, Forall_forall. intros x _.
    assert (Hp : exists p, valid_pixel p = true /\ px img x y = [luma p]).
    { subst img. unfold convert_L, crop. cbn [px bands width height].
      destruct ((0 <=? x + l) && (x + l <? width canvas)
                && (0 <=? y + u) && (y + u <? height canvas))%Z.
      - exists (px canvas (x + l)%Z (y + u)%Z). split; [|reflexivity].
        subst canvas. rewrite snapshot_image_is_surface. apply Hvalid.
      - exists [0; 0; 0]%Z. split; reflexivity. }
    destruct Hp as (p & Hv & Hpx). rewrite Hpx. cbn [nth].
    apply unit_interval, luma_byte, Hv.
Qed.

Lemma snapshot_tensor_shape_and_range_witness :
  match create_snapshot (fun _ _ => CLEAR_SCREEN) (Some (84, 60)%Z)
          (Some (470, 250)) false true true true true with
  | SnapTensor frame img =>
      has_shape frame 1 (Z.to_nat 60) (Z.to_nat 84)
      /\ tensor_within frame 0 1
      /\ bands img = 1%nat /\ width img = 84%Z /\ height img = 60%Z
  | _ => False
  end.
Proof.
  apply (snapshot_tensor_shape_and_range (fun _ _ => CLEAR_SCREEN)
           (84, 60)%Z (470, 250)).
  intros x y. reflexivity.
Defined.

(* ===================================================================== *)
(** ** Further properties of the racing environment *)
(* ===================================================================== *)

Section EnvCalls.

Context {T : Type} {TC : TrackCollaborator T}.

Import Env.

Lemma handle_event_exit (e : Env.t T) ev :
  exit (handle_event e ev) = exit e || is_exit_event ev.
Proof.
  destruct ev as [ | [ | | | ] | ]; simpl;
    rewrite ?orb_true_r, ?orb_false_r; reflexivity.
Qed.

Lemma event_loop_exit evs : forall e : Env.t T,
  exit (fold_left handle_event evs e) = exit e || existsb is_exit_event evs.
Proof.
  induction evs as [|ev evs IH]; intros e; simpl.
  - rewrite orb_false_r. reflexivity.
  - rewrite IH, handle_event_exit, orb_assoc. reflexivity.
Qed.

Lemma event_handler_exit inp (e : Env.t T) :
  exit (snd (event_handler inp e))
  = exit e
    || (negb (frame_buffer e)
        && (agent_active e
            || negb (K_LEFT (keys inp) || K_RIGHT (keys inp)))
        && existsb is_exit_event (events inp)).
Proof.
  unfold event_handler, key_presses, steer_call.
  destruct (frame_buffer e); simpl; [rewrite orb_false_r; reflexivity|].
  destruct (agent_active e); simpl; [apply event_loop_exit|].
  destruct (K_LEFT (keys inp)); simpl; [rewrite orb_false_r; reflexivity|].
  destruct (K_RIGHT (keys inp)); simpl; [rewrite orb_false_r; reflexivity|].
  rewrite event_loop_exit. reflexivity.
Qed.

Lemma step_exit action sync inp (e : Env.t T) :
  exit (snd (step action sync inp e)) = exit (snd (event_handler inp e)).
Proof.
  unfold step. destruct (event_handler inp e) as [[u|err] e1]; simpl;
    [|reflexivity].
  destruct action; [reflexivity|].
  destruct sync; [destruct (prev_time e1)|]; reflexivity.
Qed.

(** No call changes the mode flags. *)
Lemma step_mode action sync inp (e : Env.t T) :
  frame_buffer (snd (step action sync inp e)) = frame_buffer e
  /\ agent_active (snd (step action sync inp e)) = agent_active e.
Proof.
  destruct (event_handler_config inp e)
    as (_ & Hfb & Haa & _).
  unfold step. destruct (event_handler inp e) as [[u|err] e1];
    simpl in *; [|split; assumption].
  destruct action; [split; assumption|].
  destruct sync; [destruct (prev_time e1)|]; split; assumption.
Qed.

Lemma call_mode c (e : Env.t T) :
  frame_buffer (snd (call c e)) = frame_buffer e
  /\ agent_active (snd (call c e)) = agent_active e.
Proof.
  destruct c as [fa pa | a s i | r h]; simpl.
  - unfold state.
    destruct (if fa then _ else _) as [[frame img]|err]; simpl;
      [|split; reflexivity].
    destruct (done e); simpl; [split; reflexivity|].
    destruct pa; simpl; split; reflexivity.
  - pose proof (step_mode a s i e) as H.
    destruct (step a s i e). exact H.
  - split; reflexivity.
Qed.

Lemma run_mode cs : forall e : Env.t T,
  frame_buffer (run cs e) = frame_buffer e
  /\ agent_active (run cs e) = agent_active e.
Proof.
  unfold run. induction cs as [|c cs IH]; intros e; simpl.
  - split; reflexivity.
  - destruct (IH (snd (call c e))) as [H1 H2].
    destruct (call_mode c e) as [K1 K2]. split; congruence.
Qed.

Lemma run_untimed_prev cs : forall e : Env.t T,
  prev_time e = None -> prev_time (run cs e) = None.
Proof.
  unfold run. induction cs as [|c cs IH]; intros e Hp; simpl.
  - exact Hp.
  - apply IH. apply call_untimed. exact Hp.
Qed.

End EnvCalls.

(** X13.  [state] returns exactly when the frame is not requested or the
    sprite is initialised, and the environment is already done or the
    telemetry is requested.  It never changes the track or the surface;
    when it raises it changes nothing; and afterwards the done flag is
    set exactly if it was set before or the call returned and the
    telemetry reported [alive = False]. *)
Theorem state_returns_exactly_when
    {T : Type} {TC : TrackCollaborator T}
    (frame_active params_active : bool) (e : Env.t T) :
  let r := Env.state frame_active params_active e in
  Py.is_ok (fst r)
  = (negb frame_active
     || Py.is_ok (Sprite.get_position (track_sprite (Env.track e))))
    && (Env.done e || params_active)
  /\ Env.track (snd r) = Env.track e
  /\ Env.surface (snd r) = Env.surface e
  /\ (Py.is_ok (fst r) = false -> snd r = e)
  /\ Env.done (snd r)
     = Env.done e
       || (Py.is_ok (fst r)
           && negb (alive (track_get_params (Env.track e)))).
Proof.
  unfold Env.state.
  destruct frame_active; simpl;
    [destruct (Sprite.get_position (track_sprite (Env.track e))); simpl|];
    destruct (Env.done e) eqn:Hd; simpl;
    destruct params_active; simpl;
    repeat split; try reflexivity; try discriminate; try exact Hd;
    try (symmetry; exact Hd); try (intros _; reflexivity).
Qed.

(** X14.  Polling [state] again without stepping changes nothing: a second
    call with the same flags returns the same result and leaves the
    environment as the first call left it. *)
Theorem state_is_idempotent
    {T : Type} {TC : TrackCollaborator T}
    (frame_active params_active : bool) (e : Env.t T) :
  Env.state frame_active params_active
    (snd (Env.state frame_active params_active e))
  = Env.state frame_active params_active e.
Proof.
  destruct e as [fs fb aa surf tr pt ct att dn ex].
  unfold Env.state.
  cbn [Env.done Env.track Env.surface Env.frame_size Env.set_done].
  destruct frame_active.
  - destruct (Sprite.get_position (track_sprite tr)) as [pos|err] eqn:Ep;
      cbn [Py.bind snd Env.done Env.track Env.surface Env.frame_size];
      rewrite ?Ep; cbn [Py.bind]; [|reflexivity].
    destruct (create_snapshot surf (Some fs) (Some pos)
                false true true true true) eqn:Es;
      cbn [snd Env.done Env.track Env.surface Env.frame_size];
      rewrite ?Ep; cbn [Py.bind]; rewrite ?Es; try reflexivity.
    destruct dn;
      cbn [snd Env.done Env.track Env.surface Env.frame_size Env.set_done];
      rewrite ?Ep; cbn [Py.bind]; rewrite ?Es; [reflexivity|].
    destruct params_active;
      cbn [snd Env.done Env.track Env.surface Env.frame_size Env.set_done];
      rewrite ?Ep; cbn [Py.bind]; rewrite ?Es; [|reflexivity].
    destruct (alive (track_get_params tr)) eqn:Ha;
      cbn [negb snd Env.done Env.track Env.surface Env.frame_size
           Env.set_done];
      rewrite ?Ep; cbn [Py.bind]; rewrite ?Es, ?Ha; reflexivity.
  - destruct dn;
      cbn [snd Env.done Env.track Env.surface Env.frame_size Env.set_done];
      [reflexivity|].
    destruct params_active;
      cbn [snd Env.done Env.track Env.surface Env.frame_size Env.set_done];
      [|reflexivity].
    destruct (alive (track_get_params tr)) eqn:Ha;
      cbn [negb snd Env.done Env.track Env.surface Env.frame_size
           Env.set_done];
      rewrite ?Ha; reflexivity.
Qed.

(** X15.  The exit flag is set only by the event loop and never cleared:
    after [step] it is set exactly if it was set before, or the
    environment has a window, the key presses made no steering call
    (agent-driven mode, or neither LEFT nor RIGHT held) and the events of
    the step hold a QUIT or an ESCAPE key press.  A headless environment
    never sets it, and with LEFT or RIGHT held under manual control the
    event queue is not read. *)
Theorem exit_flag_after_step
    {T : Type} {TC : TrackCollaborator T}
    (action : option Z) (sync : bool) (inp : Input) (e : Env.t T) :
  Env.exit (snd (Env.step action sync inp e))
  = Env.exit e
    || (negb (Env.frame_buffer e)
        && (Env.agent_active e
            || negb (K_LEFT (keys inp) || K_RIGHT (keys inp)))
        && existsb is_exit_event (events inp)).
Proof.
  rewrite step_exit. apply event_handler_exit.
Qed.

(** X16.  A headless environment ignores keyboard and window input: the
    outcome of [step] depends on the input only through the clock
    reading. *)
Theorem headless_step_ignores_input
    {T : Type} {TC : TrackCollaborator T}
    (action : option Z) (sync : bool) (inp : Input)
    (other_keys : Keys) (other_events : list Event) (e : Env.t T) :
  Env.frame_buffer e = true ->
  Env.step action sync (mkInput other_keys other_events (ticks inp)) e
  = Env.step action sync inp e.
Proof.
  intros Hfb. unfold Env.step.
  rewrite !event_handler_headless by exact Hfb. reflexivity.
Qed.

Lemma headless_step_ignores_input_witness :
  Env.step (Some 0%Z) false
    (mkInput (mkKeys true false true false) [QUIT; KEYDOWN K_r] 7)
    (Demo.racer (250, 250) true)
  = Env.step (Some 0%Z) false (Demo.no_input 7) (Demo.racer (250, 250) true).
Proof.
  apply (headless_step_ignores_input (Some 0%Z) false (Demo.no_input 7)
           (mkKeys true false true false) [QUIT; KEYDOWN K_r]
           (Demo.racer (250, 250) true)).
  reflexivity.
Defined.

(** X17.  An environment built with [agent_active = True] has no stored
    timestamp, whatever calls it went through: a [step] with
    [sync = True] and no action raises [AttributeError] -- after the
    track was advanced and rendered, and with the clock reading stored in
    [curr_time] -- and the attenuation is still 1. *)
Theorem synced_step_in_agent_mode_raises
    {T : Type} {TC : TrackCollaborator T}
    (frame_size : Z * Z) (frame_buffer : bool) (track0 : T) (now : Z)
    (cs : list Env.Call) (inp : Input) :
  let e := Env.run cs (Env.init frame_size frame_buffer true track0 now) in
  let r := Env.step None true inp e in
  fst r = Py.Raise Py.AttributeError
  /\ Env.track (snd r)
     = track_act 1 (Env.track (snd (Env.event_handler inp e)))
  /\ Env.surface (snd r)
     = track_render (Env.track (snd r)) (fun _ _ => CLEAR_SCREEN)
  /\ Env.curr_time (snd r) = Some (ticks inp)
  /\ Env.attenuation (snd r) = 1.
Proof.
  intros e r.
  assert (Hp : Env.prev_time e = None)
    by (apply run_untimed_prev; reflexivity).
  assert (Ha : Env.attenuation e = 1)
    by (unfold e; rewrite run_untimed; reflexivity).
  assert (Hev : Py.is_ok (fst (Env.event_handler inp e)) = true).
  { rewrite event_handler_returns.
    destruct (run_mode cs (Env.init frame_size frame_buffer true track0 now))
      as [_ Haa].
    fold e in Haa. rewrite Haa. simpl. rewrite orb_true_r. reflexivity. }
  pose proof (step_synced inp e Hev) as Hs. rewrite Hp in Hs.
  destruct Hs as (Hr & Hatt & _ & Hc).
  destruct (step_track true inp e Hev) as (Ht & Hsf).
  subst r. rewrite Hr, Ht, Hsf, Hatt, Hc, Ha. repeat split.
Qed.

(** X24.  [step] with an action never returns: sprite.py has no
    [act_action], so the call raises [AttributeError] in every
    environment, for every action id, before the track is advanced (the
    track is the one the event handler left) and with the timing
    attributes and the done flag as they were. *)
Theorem step_with_action_raises
    {T : Type} {TC : TrackCollaborator T}
    (action : Z) (sync : bool) (inp : Input) (e : Env.t T) :
  let r := Env.step (Some action) sync inp e in
  fst r = Py.Raise Py.AttributeError
  /\ Env.track (snd r) = Env.track (snd (Env.event_handler inp e))
  /\ Env.attenuation (snd r) = Env.attenuation e
  /\ Env.prev_time (snd r) = Env.prev_time e
  /\ Env.done (snd r) = Env.done e.
Proof.
  intros r. subst r.
  destruct (event_handler_config inp e)
    as (_ & _ & _ & _ & Hprev & _ & Hatt & Hdone).
  assert (Herr : forall err e1,
             Env.event_handler inp e = (Py.Raise err, e1) ->
             err = Py.AttributeError).
  { unfold Env.event_handler, Env.key_presses.
    destruct (negb (Env.frame_buffer e)); [|discriminate].
    destruct (negb (Env.agent_active e)); [|discriminate].
    destruct (Env.steer_call _ _); simpl; intros err e1 H;
      inversion H; reflexivity. }
  unfold Env.step.
  destruct (Env.event_handler inp e) as [[u|err] e1] eqn:He; simpl in *.
  - repeat split; assumption.
  - rewrite (Herr err e1 eq_refl). repeat split; assumption.
Qed.

(* ===================================================================== *)
(** ** Further properties of the baseline environment *)
(* ===================================================================== *)


(** X18.  The viewport of the baseline [state], on a row of the 600 pixel
    wide screen, is always a window of 320 consecutive pixels: centered on
    the cart location while that is between 160 and 440, and held at the
    left or right screen edge beyond (the window starts at
    [cart_location - 160] clamped to [0, 280]), for every cart location,
    also one off the screen. *)
Theorem viewport_is_clamped_window
    {A : Type} (cart_location : Z) (row : list A) :
  length row = 600%nat ->
  take_slice (Baseline.slice_range cart_location) row
  = firstn 320
      (skipn (Z.to_nat (Z.max 0 (Z.min 280 (cart_location - 160)))) row)
  /\ length (take_slice (Baseline.slice_range cart_location) row) = 320%nat.
Proof.
  intros Hlen. split.
  - apply viewport_window. exact Hlen.
  - apply viewport_length. exact Hlen.
Qed.

Lemma viewport_is_clamped_window_witness :
  take_slice (Baseline.slice_range 500) (zrange 600)
  = firstn 320
      (skipn (Z.to_nat (Z.max 0 (Z.min 280 (500 - 160)))) (zrange 600))
  /\ length (take_slice (Baseline.slice_range 500) (zrange 600)) = 320%nat.
Proof.
  apply (viewport_is_clamped_window 500 (zrange 600)).
  vm_compute. reflexivity.
Defined.

(** X19.  While the cart is within the simulator's threshold
    ([-x_threshold <= x <= x_threshold], with a positive threshold),
    [get_cart_location] returns a column on the 600 pixel wide screen: the
    floor of [x * 600 / (2 * x_threshold) + 300], between 0 and 600. *)
Theorem cart_location_on_screen
    {G : Type} {GS : GymSimulator G} (b : Baseline.t G) :
  0 < gym_x_threshold ->
  - gym_x_threshold <= gym_state0 (Baseline.env b) ->
  gym_state0 (Baseline.env b) <= gym_x_threshold ->
  exists loc : Z,
    Baseline.get_cart_location b = Py.Ok loc
    /\ (0 <= loc <= 600)%Z
    /\ inject_Z loc
       <= gym_state0 (Baseline.env b) * (600 / (gym_x_threshold * 2)) + 300
    /\ gym_state0 (Baseline.env b) * (600 / (gym_x_threshold * 2)) + 300
       < inject_Z loc + 1.
Proof.
  intros Ht Hlo Hhi.
  set (x := gym_state0 (Baseline.env b)) in *.
  set (k := 600 / (gym_x_threshold * 2)).
  assert (Hk : k * gym_x_threshold == 300).
  { unfold k. field. intros E. rewrite E in Ht. discriminate Ht. }
  assert (Hkpos : 0 < k).
  { destruct (Qlt_le_dec 0 k) as [H|H]; [exact H|].
    assert (k * gym_x_threshold <= 0 * gym_x_threshold)
      by (apply Qmult_le_compat_r; [exact H | apply Qlt_le_weak, Ht]).
    lra. }
  assert (Hup : x * k <= 300).
  { rewrite <- Hk. rewrite (Qmult_comm k). apply Qmult_le_compat_r;
      [exact Hhi | apply Qlt_le_weak, Hkpos]. }
  assert (Hdown : -300 <= x * k).
  { assert ((- gym_x_threshold) * k <= x * k)
      by (apply Qmult_le_compat_r; [exact Hlo | apply Qlt_le_weak, Hkpos]).
    assert ((- gym_x_threshold) * k == - (k * gym_x_threshold)) by ring.
    lra. }
  assert (Hz : Qeq_bool (gym_x_threshold * 2) 0 = false).
  { destruct (Qeq_bool (gym_x_threshold * 2) 0) eqn:E; [|reflexivity].
    apply Qeq_bool_iff in E. lra. }
  unfold Baseline.get_cart_location. rewrite Hz.
  change (inject_Z Baseline.screen_width) with 600.
  fold x. fold k.
  assert (E : x * k + 600 / 2 == x * k + 300) by field.
  set (v := x * k + 600 / 2) in *.
  assert (Hv : 0 <= v) by (rewrite E; lra).
  destruct (int_floor v Hv) as (H1 & H2 & H3).
  exists (Py.int v). split; [reflexivity|].
  set (loc := Py.int v) in *. clearbody loc. clearbody v.
  assert (Hloc : inject_Z loc <= inject_Z 600)
    by (change (inject_Z 600) with 600; lra).
  rewrite <- Zle_Qle in Hloc.
  split; [lia|]. split; lra.
Qed.

Lemma cart_location_on_screen_witness :
  exists loc : Z,
    Baseline.get_cart_location Demo.cartpole = Py.Ok loc
    /\ (0 <= loc <= 600)%Z
    /\ inject_Z loc
       <= gym_state0 (Baseline.env Demo.cartpole)
          * (600 / (gym_x_threshold * 2)) + 300
    /\ gym_state0 (Baseline.env Demo.cartpole)
       * (600 / (gym_x_threshold * 2)) + 300
       < inject_Z loc + 1.
Proof.
  apply (cart_location_on_screen Demo.cartpole).
  - reflexivity.
  - simpl. discriminate.
  - simpl. discriminate.
Defined.

Section BaselineCalls.

Context {G : Type} {GS : GymSimulator G}.

Lemma baseline_call_flags (c : Baseline.Call) (b : Baseline.t G) :
  Baseline.done (Baseline.call c b) = Baseline.done b
  /\ Baseline.exit (Baseline.call c b) = Baseline.exit b
  /\ Baseline.resizer (Baseline.call c b) = Baseline.resizer b.
Proof.
  destruct c as [fa pa | a s | r h]; simpl.
  - unfold Baseline.state. destruct (gym_render (Baseline.env b)) as [rgb g].
    destruct (Baseline.get_cart_location (Baseline.set_env g b));
      repeat split.
  - unfold Baseline.step. destruct a as [a|]; [|repeat split].
    destruct (gym_step a (Baseline.env b)) as [[reward d] g]. repeat split.
  - repeat split.
Qed.

Lemma baseline_run_flags (cs : list Baseline.Call) : forall b : Baseline.t G,
  Baseline.done (Baseline.run cs b) = Baseline.done b
  /\ Baseline.exit (Baseline.run cs b) = Baseline.exit b
  /\ Baseline.resizer (Baseline.run cs b) = Baseline.resizer b.
Proof.
  unfold Baseline.run. induction cs as [|c cs IH]; intros b; simpl.
  - repeat split.
  - destruct (IH (Baseline.call c b)) as (H1 & H2 & H3).
    destruct (baseline_call_flags c b) as (K1 & K2 & K3).
    repeat split; congruence.
Qed.

End BaselineCalls.

(** X20.  The baseline environment never sets its [done] and [exit]
    attributes: after any sequence of [state], [step] and [reset] calls on
    a new environment both are still [False] -- also when a step of the
    wrapped simulator reported done, which only the return value of
    [step] carries -- and the resize pipeline is the one built at
    construction. *)
Theorem baseline_never_sets_done
    {G : Type} {GS : GymSimulator G} (frame_size : Z * Z) (make : G)
    (compose : Z * Z -> Tensor -> Tensor) (cs : list Baseline.Call)
    (action : Z) (sync : bool) :
  let b := Baseline.run cs (Baseline.init frame_size make compose) in
  Baseline.done b = false
  /\ Baseline.exit b = false
  /\ Baseline.resizer b = compose frame_size
  /\ Baseline.done (snd (Baseline.step (Some action) sync b)) = false
  /\ fst (Baseline.step (Some action) sync b)
     = Py.Ok (Some (fst (fst (gym_step action (Baseline.env b)))),
              snd (fst (gym_step action (Baseline.env b)))).
Proof.
  intros b.
  destruct (baseline_run_flags cs (Baseline.init frame_size make compose))
    as (H1 & H2 & H3).
  fold b in H1, H2, H3. simpl in H1, H2, H3.
  split; [exact H1|]. split; [exact H2|]. split; [exact H3|].
  unfold Baseline.step.
  destruct (gym_step action (Baseline.env b)) as [[reward d] g]. simpl.
  split; [exact H1 | reflexivity].
Qed.


(** X21.  The frame of the baseline [state] is the resize pipeline applied
    to the processed screen, and for a rendered frame of 400 rows of 600
    RGB pixels the processed screen has 3 channels of 160 rows of 320
    values, for every cart location. *)
Theorem baseline_screen_shape
    {G : Type} {GS : GymSimulator G} (b : Baseline.t G)
    (frame_active params_active : bool)
    (rgb : list (list (list Z))) (cart_location : Z) :
  length rgb = 400%nat ->
  Forall (fun row => length row = 600%nat) rgb ->
  has_shape (Baseline.processed_screen rgb cart_location) 3 160 320
  /\ (forall loc : Z,
        Baseline.get_cart_location
          (Baseline.set_env (snd (gym_render (Baseline.env b))) b)
        = Py.Ok loc ->
        fst (Baseline.state frame_active params_active b)
        = Py.Ok (Some (Baseline.resizer b
                         (Baseline.processed_screen
                            (fst (gym_render (Baseline.env b))) loc)),
                 None, None)).
Proof.
  intros Hh Hw. split.
  - apply processed_screen_shape; assumption.
  - intros loc Hloc. unfold Baseline.state.
    destruct (gym_render (Baseline.env b)) as [frame g]. simpl in Hloc.
    rewrite Hloc. reflexivity.
Qed.

Lemma baseline_screen_shape_witness :
  has_shape
    (Baseline.processed_screen
       (repeat (repeat [255; 255; 255]%Z 600) 400) 300) 3 160 320
  /\ (forall loc : Z,
        Baseline.get_cart_location
          (Baseline.set_env (snd (gym_render (Baseline.env Demo.cartpole)))
                            Demo.cartpole)
        = Py.Ok loc ->
        fst (Baseline.state false false Demo.cartpole)
        = Py.Ok (Some (Baseline.resizer Demo.cartpole
                         (Baseline.processed_screen
                            (fst (gym_render (Baseline.env Demo.cartpole)))
                            loc)),
                 None, None)).
Proof.
  apply (baseline_screen_shape Demo.cartpole false false
           (repeat (repeat [255; 255; 255]%Z 600) 400) 300).
  - apply repeat_length.
  - apply Forall_forall. intros row Hin.
    apply repeat_spec in Hin. subst row. apply repeat_length.
Defined.

(** X22.  At attenuation 1 the movement keys of the manual controls act as
    the action ids: UP (alone or with DOWN) changes the sprite as
    [act_actions] does for id 0, DOWN alone as for id 1.  Every key
    combination with LEFT or RIGHT raises [AttributeError], at any
    attenuation: the steering call has no method to reach. *)
Theorem manual_controls_match_action_ids
    (s : Sprite.t) (att : Q) (up down right : bool) :
  let hold_up := Env.key_presses (mkKeys true down false false) 1 s in
  let hold_down := Env.key_presses (mkKeys false true false false) 1 s in
  fst hold_up = Py.Ok tt
  /\ Sprite.equiv (snd hold_up) (Sprite.act_actions (Some 0%Z) s)
  /\ fst hold_down = Py.Ok tt
  /\ Sprite.equiv (snd hold_down) (Sprite.act_actions (Some 1%Z) s)
  /\ fst (Env.key_presses (mkKeys up down true right) att s)
     = Py.Raise Py.AttributeError
  /\ fst (Env.key_presses (mkKeys up down false true) att s)
     = Py.Raise Py.AttributeError.
Proof.
  intros hold_up hold_down. subst hold_up hold_down.
  destruct (act_actions_frame 0 s) as (Hp0 & Ho0 & Hc0).
  destruct (act_actions_frame 1 s) as (Hp1 & Ho1 & Hc1).
  destruct (movement_frame (Sprite.acceleration * 1) s) as (Fp & Fo & Fc).
  destruct (movement_frame (- Sprite.acceleration * 1) s) as (Gp & Go & Gc).
  unfold Env.key_presses, Env.steer_call, Sprite.equiv.
  cbn [K_UP K_DOWN K_LEFT K_RIGHT fst snd].
  rewrite Hp0, Ho0, Hc0, Hp1, Ho1, Hc1, Fp, Fo, Fc, Gp, Go, Gc.
  rewrite !act_actions_rotation, !act_actions_velocity, !movement_rotation.
  change (Sprite.decode 0) with (0 + Sprite.acceleration, 0).
  change (Sprite.decode 1) with (0 - Sprite.acceleration, 0).
  cbn [fst snd].
  repeat split; try reflexivity;
    first [ ring | apply movement_velocity_proper; [reflexivity | ring] ].
Qed.

(** X23.  Synchronised steps measure the time between them: in a timed
    headless environment, a synchronised step at clock reading [t1], any
    step without sync (returning or raising), and a synchronised step at
    [t2] leave the attenuation [(t2 - t1) / (1000 / 60)], whatever the
    timestamp of construction and the time spent in the step without
    sync; both synchronised steps return. *)
Theorem synced_steps_measure_elapsed_time
    {T : Type} {TC : TrackCollaborator T} (e : Env.t T) (prev : Z)
    (action : option Z) (inp1 inp2 inp3 : Input) :
  Env.prev_time e = Some prev ->
  Env.frame_buffer e = true ->
  let e1 := snd (Env.step None true inp1 e) in
  let e2 := snd (Env.step action false inp2 e1) in
  let e3 := snd (Env.step None true inp3 e2) in
  fst (Env.step None true inp1 e) = Py.Ok (None, false)
  /\ fst (Env.step None true inp3 e2) = Py.Ok (None, false)
  /\ Env.attenuation e3
     = inject_Z (ticks inp3 - ticks inp1) / (1000 / FPS_CAP).
Proof.
  intros Hp Hfb e1 e2 e3.
  assert (Hev1 : Py.is_ok (fst (Env.event_handler inp1 e)) = true)
    by (rewrite event_handler_returns, Hfb; reflexivity).
  pose proof (step_synced inp1 e Hev1) as H1. rewrite Hp in H1.
  destruct H1 as (Hok1 & _ & Hp1). fold e1 in Hp1.
  destruct (step_mode None true inp1 e) as [Hfb1 _]. fold e1 in Hfb1.
  destruct (step_unsynced action inp2 e1) as (_ & Hp2). fold e2 in Hp2.
  destruct (step_mode action false inp2 e1) as [Hfb2 _]. fold e2 in Hfb2.
  assert (Hev3 : Py.is_ok (fst (Env.event_handler inp3 e2)) = true)
    by (rewrite event_handler_returns, Hfb2, Hfb1, Hfb; reflexivity).
  pose proof (step_synced inp3 e2 Hev3) as H3. rewrite Hp2, Hp1 in H3.
  destruct H3 as (Hok3 & Ha3 & _). fold e3 in Ha3.
  split; [exact Hok1|]. split; [exact Hok3 | exact Ha3].
Qed.

Lemma synced_steps_measure_elapsed_time_witness :
  let e0 := Env.init (84, 84)%Z true false
              (Demo.lane_at (250, 250) true) 5 in
  let e1 := snd (Env.step None true (Demo.no_input 22) e0) in
  let e2 := snd (Env.step (Some 0%Z) false (Demo.no_input 30) e1) in
  let e3 := snd (Env.step None true (Demo.no_input 72) e2) in
  fst (Env.step None true (Demo.no_input 22) e0) = Py.Ok (None, false)
  /\ fst (Env.step None true (Demo.no_input 72) e2) = Py.Ok (None, false)
  /\ Env.attenuation e3 = inject_Z (72 - 22) / (1000 / FPS_CAP).
Proof.
  apply (synced_steps_measure_elapsed_time
           (Env.init (84, 84)%Z true false
              (Demo.lane_at (250, 250) true) 5)
           5 (Some 0%Z)
           (Demo.no_input 22) (Demo.no_input 30) (Demo.no_input 72)).
  - reflexivity.
  - reflexivity.
Defined.
